(** * SentenceTransformerManager: embedding orchestration

    A shallow embedding of
    [framework/common/space/embedding/sentence_transformer_manager.py]
    and the properties of its prompt selection, failure classification and
    orchestration of the external collaborators (device selector, model
    cache, model handle). *)

From Stdlib Require Import String Ascii List ZArith Lia Decimal DecimalString.
From stdpp Require Import base gmap strings list.

Local Open Scope string_scope.
Set Warnings "-register-all".

(** ** Python strings

    A [str] is modelled by [string]: one character of the model stands for
    one code point, [String.length] is Python's [len]. *)

(** [s.startswith(prefix)]. *)
Definition startswith (s prefix : string) : bool := String.prefix prefix s.

(** [needle in hay] on two strings: [needle] starts at some position of
    [hay]. *)
Fixpoint contains (needle hay : string) : bool :=
  String.prefix needle hay
  || match hay with
     | EmptyString => false
     | String _ rest => contains needle rest
     end.

(** [str(n)] / [f"{n}"] for a non-negative [int]: its decimal digits. *)
Definition str_of_nat (n : nat) : string :=
  NilEmpty.string_of_uint (Nat.to_uint n).

(** The line feed of ["\n"]. *)
Definition LF : string := String (ascii_of_nat 10) EmptyString.

(** ** Exceptions

    A class is known by its name and its direct bases.  [RuntimeError] and
    [ValueError] are the two keys of the predicate table;
    [EmbeddingException] is the repository's own error (its declaration is in
    [embedding/exception.py]); every other class, builtin or user-defined,
    is an [OtherClass], e.g. [OtherClass "NotImplementedError" [RuntimeError]]
    or [OtherClass "TimeoutError" []]. *)
Inductive PyClass : Type :=
| RuntimeError
| ValueError
| EmbeddingException
| OtherClass (name : string) (bases : list PyClass).

Definition is_RuntimeError (c : PyClass) : bool :=
  match c with RuntimeError => true | _ => false end.

Definition is_ValueError (c : PyClass) : bool :=
  match c with ValueError => true | _ => false end.

(** [issubclass(c, target)], the target class given by its recogniser: [c] is
    the target or one of its bases is a subclass of it. *)
Fixpoint issubclass (is_target : PyClass -> bool) (c : PyClass) : bool :=
  is_target c
  || match c with
     | OtherClass _ bases => existsb (issubclass is_target) bases
     | _ => false
     end.

(** An exception object: its runtime type [type(e)], the text [str(e)] and
    the [__cause__] set by [raise ... from ...]. *)
Inductive PyExc : Type :=
  MkExc { exc_type : PyClass; exc_str : string; exc_cause : option PyExc }.

(** What a call does: it returns a value or raises. *)
Inductive Outcome (A : Type) : Type :=
| Return (a : A)
| Raise (e : PyExc).
Arguments Return {A} a.
Arguments Raise {A} e.

(** [max(iterable)] on the lengths: the running maximum from the first
    element; a [ValueError] on an empty iterable (its message is worded
    differently from one CPython version to another; nothing below depends
    on the wording). *)
Definition py_max (xs : list nat) : Outcome nat :=
  match xs with
  | [] => Raise (MkExc ValueError "max() arg is an empty sequence" None)
  | x :: rest => Return (foldl Nat.max x rest)
  end.

(** ** Module constants *)

Definition SENTENCE_TRANSFORMER_PROMPT_NAME_KWARG_KEY : string := "prompt_name".
Definition QUERY_PROMPT_NAME : string := "query".

(** The predicate table, as the lookup [table.get(type(e))]: a dict keyed by
    class objects finds an entry for exactly the two classes themselves. *)
Definition EXCEEDED_LENGTH_EXCEPTION_PREDICATE_BY_EXCEPTION_TYPE
    (cls : PyClass) : option (PyExc -> bool) :=
  match cls with
  | RuntimeError =>
      Some (fun e => contains "The size of tensor a" (exc_str e)
                     && contains "must match the size of tensor b" (exc_str e))
  | ValueError =>
      Some (fun e => startswith (exc_str e)
                       "Sequence length must be less than max_position_embeddings")
  | _ => None
  end.

(** ** Inputs and context *)

(** One input of a batch: [str | Image]. *)
Inductive EmbeddingInput (Image : Type) : Type :=
| Str (s : string)
| Img (i : Image).
Arguments Str {Image} s.
Arguments Img {Image} i.

(** Modelled from the spec: [ExecutionContext] is declared in
    [common/dag/context.py]; the manager reads its boolean
    [is_query_context] only. *)
Record ExecutionContext : Type := { is_query_context : bool }.

(** ** The collaborators

    The device selector, the model cache and the model handle are external:
    each is a fallible operation on the state of the world outside the
    manager (loaded models, devices).  The manager sees a model handle
    through its [prompts] dict, its [default_prompt_name] and [encode]. *)
Class Collaborators : Type := {
  World : Type;
  DeviceType : Type;
  Path : Type;
  Image : Type;
  Float : Type;
  SentenceTransformer : Type;
  prompts : SentenceTransformer -> gmap string string;
  default_prompt_name : SentenceTransformer -> option string;
  (** [model.encode(inputs, prompt_name=...)]: a two-dimensional array,
      given by its rows. *)
  SentenceTransformer_encode :
    SentenceTransformer -> list (EmbeddingInput Image) -> option string ->
    World -> Outcome (list (list Float)) * World;
  GpuEmbeddingUtil_get_device_type :
    nat -> World -> Outcome DeviceType * World;
  SentenceTransformerModelCache_initialize_model :
    string -> DeviceType -> Path -> World -> Outcome SentenceTransformer * World;
  SentenceTransformerModelCache_calculate_length :
    string -> Path -> World -> Outcome Z * World
}.

Section Manager.
Context `{C : Collaborators}.

Definition ndarray : Type := list (list Float).

(** [embeddings.tolist()] of a two-dimensional array: the list of its rows. *)
Definition tolist (a : ndarray) : list (list Float) := a.

(** Modelled from the spec: [Vector] is declared in [common/data_types.py];
    an ordered numeric container wrapping one embedding. *)
Record Vector : Type := Vector_init { value : list Float }.

Definition vector_length (v : Vector) : nat := length (value v).

(** The manager object: the two attributes the methods read. *)
Record SentenceTransformerManager : Type := {
  _model_name : string;
  _model_cache_dir : Path
}.

(** *** Calls and the monad of the methods

    A run of a method gives its outcome, the world it leaves and the calls
    it made, in order: the calls to the collaborators and the calls of the
    private failure classifier. *)
Inductive Call : Type :=
| Call_get_device_type (number_of_inputs : nat)
| Call_initialize_model (model_name : string) (device_type : DeviceType)
    (cache_dir : Path)
| Call_calculate_length (model_name : string) (cache_dir : Path)
| Call_encode (model : SentenceTransformer)
    (inputs : list (EmbeddingInput Image)) (prompt_name : option string)
| Call_handle_exceeded_length_exception (exception : PyExc)
    (inputs : list (EmbeddingInput Image)).

Record Run (A : Type) : Type := {
  outcome : Outcome A;
  world_after : World;
  calls : list Call
}.
Arguments Build_Run {A} _ _ _.
Arguments outcome {A} _.
Arguments world_after {A} _.
Arguments calls {A} _.

Definition M (A : Type) : Type := World -> Run A.

Definition ret {A} (a : A) : M A := fun w => Build_Run (Return a) w [].

Definition raise {A} (e : PyExc) : M A := fun w => Build_Run (Raise e) w [].

Definition bind {A B} (m : M A) (k : A -> M B) : M B :=
  fun w =>
    let r1 := m w in
    match outcome r1 with
    | Return a =>
        let r2 := k a (world_after r1) in
        Build_Run (outcome r2) (world_after r2) (calls r1 ++ calls r2)%list
    | Raise e => Build_Run (Raise e) (world_after r1) (calls r1)
    end.

Notation "x <- m ;; k" := (bind m (fun x => k))
  (at level 100, m at next level, right associativity).

(** A call to a collaborator, recorded. *)
Definition invoke {A} (c : Call) (f : World -> Outcome A * World) : M A :=
  fun w => Build_Run (f w).1 (f w).2 [c].

(** A call to a method that does not touch the world, recorded. *)
Definition invoke_pure {A} (c : Call) (o : Outcome A) : M A :=
  fun w => Build_Run o w [c].

(** [try: body  except classes as e: handler e]. *)
Definition try_except {A} (body : M A) (catches : PyExc -> bool)
    (handler : PyExc -> M A) : M A :=
  fun w =>
    let r1 := body w in
    match outcome r1 with
    | Return a => r1
    | Raise e =>
        if catches e then
          let r2 := handler e (world_after r1) in
          Build_Run (outcome r2) (world_after r2) (calls r1 ++ calls r2)%list
        else r1
    end.

(** [isinstance(e, (RuntimeError, ValueError))], the test of the [except]
    clause. *)
Definition isinstance_RuntimeError_or_ValueError (e : PyExc) : bool :=
  issubclass is_RuntimeError (exc_type e) || issubclass is_ValueError (exc_type e).

(** ** The methods of [SentenceTransformerManager]

    The decorators [@override] and [@time_execution] do not change what a
    method returns or raises and are left out. *)

Definition _calculate_prompt_name (model : SentenceTransformer)
    (context : ExecutionContext) : option string :=
  if bool_decide (QUERY_PROMPT_NAME ∈ dom (prompts model))
     && is_query_context context
  then Some QUERY_PROMPT_NAME
  else default_prompt_name model.

Definition _get_embedding_model (self : SentenceTransformerManager)
    (number_of_inputs : nat) : M SentenceTransformer :=
  device_type <- invoke (Call_get_device_type number_of_inputs)
                   (GpuEmbeddingUtil_get_device_type number_of_inputs) ;;
  model <- invoke
             (Call_initialize_model (_model_name self) device_type
                (_model_cache_dir self))
             (SentenceTransformerModelCache_initialize_model
                (_model_name self) device_type (_model_cache_dir self)) ;;
  ret model.

Definition calculate_length (self : SentenceTransformerManager) : M Z :=
  invoke (Call_calculate_length (_model_name self) (_model_cache_dir self))
    (SentenceTransformerModelCache_calculate_length
       (_model_name self) (_model_cache_dir self)).

Definition _encode (inputs : list (EmbeddingInput Image))
    (model : SentenceTransformer) (prompt_name : option string) : M ndarray :=
  invoke (Call_encode model inputs prompt_name)
    (SentenceTransformer_encode model inputs prompt_name).

(** [len(str(x)) if isinstance(x, str) else 0]. *)
Definition input_len (x : EmbeddingInput Image) : nat :=
  match x with
  | Str s => String.length s
  | Img _ => 0
  end.

(** The message of the translated error. *)
Definition exceeded_length_message (self : SentenceTransformerManager)
    (longest_input_len : nat) : string :=
  "Model " ++ _model_name self
  ++ " failed to encode inputs - input was too long. "
  ++ "Try shortening the input text." ++ LF
  ++ "Longest input length: " ++ str_of_nat longest_input_len ++ " chars".

(** The failure classifier; its result type is [None], and none of its
    paths reaches the end of the body. *)
Definition __handle_exceeded_length_exception
    (self : SentenceTransformerManager) (exception : PyExc)
    (inputs : list (EmbeddingInput Image)) : Outcome unit :=
  match EXCEEDED_LENGTH_EXCEPTION_PREDICATE_BY_EXCEPTION_TYPE
          (exc_type exception) with
  | Some predicate =>
      if predicate exception then
        match py_max (map input_len inputs) with
        | Return longest_input_len =>
            Raise (MkExc EmbeddingException
                     (exceeded_length_message self longest_input_len)
                     (Some exception))
        | Raise max_error => Raise max_error
        end
      else Raise exception
  | None => Raise exception
  end.

(** [UnboundLocalError] of a local read before it is bound (the message as
    CPython 3.11 words it). *)
Definition unbound_local (name : string) : PyExc :=
  MkExc (OtherClass "UnboundLocalError" [OtherClass "NameError" []])
    ("cannot access local variable '" ++ name
     ++ "' where it is not associated with a value")
    None.

(** The batch-embedding primitive.  The local [embeddings] is bound by the
    body of the [try]; were the handler to return, it would be unbound at the
    [return]. *)
Definition _embed (self : SentenceTransformerManager)
    (inputs : list (EmbeddingInput Image)) (context : ExecutionContext)
    : M (list (list Float)) :=
  model <- _get_embedding_model self (length inputs) ;;
  let prompt_name := _calculate_prompt_name model context in
  embeddings <-
    try_except
      (a <- _encode inputs model prompt_name ;; ret (Some a))
      isinstance_RuntimeError_or_ValueError
      (fun e =>
         _ <- invoke_pure (Call_handle_exceeded_length_exception e inputs)
                (__handle_exceeded_length_exception self e inputs) ;;
         ret None) ;;
  match embeddings with
  | Some a => ret (tolist a)
  | None => raise (unbound_local "embeddings")
  end.

Definition embed_text (self : SentenceTransformerManager)
    (inputs : list string) (context : ExecutionContext) : M (list Vector) :=
  match inputs with
  | [] => ret []
  | _ :: _ =>
      embeddings <- _embed self (map Str inputs) context ;;
      ret (map Vector_init embeddings)
  end.

End Manager.

Arguments Build_Run {C A} _ _ _.
Arguments outcome {C A} _.
Arguments world_after {C A} _.
Arguments calls {C A} _.

(** ** A concrete set of collaborators

    A small world to run the methods in: the state of the world is the error
    the next [encode] call raises, if any; otherwise [encode] returns one row
    of zeros per input, of the model's dimension. *)
Module Sample.

Record Model : Type := {
  model_prompts : gmap string string;
  model_default_prompt_name : option string;
  model_dimension : nat
}.

(** A model with a ["query"] prompt and no default prompt. *)
Definition asymmetric : Model := {|
  model_prompts := <["query" := "query: "]> (<["passage" := "passage: "]> ∅);
  model_default_prompt_name := None;
  model_dimension := 3
|}.

(** A model whose default prompt is its ["query"] prompt. *)
Definition query_by_default : Model := {|
  model_prompts := <["query" := "query: "]> ∅;
  model_default_prompt_name := Some "query";
  model_dimension := 2
|}.

(** A model without prompts. *)
Definition plain : Model := {|
  model_prompts := ∅;
  model_default_prompt_name := None;
  model_dimension := 4
|}.

Definition model_of_name (name : string) : Model :=
  if String.eqb name "asymmetric" then asymmetric
  else if String.eqb name "query_by_default" then query_by_default
  else plain.

#[export] Instance collaborators : Collaborators := {|
  World := option PyExc;
  DeviceType := string;
  Path := string;
  Image := nat;
  Float := Z;
  SentenceTransformer := Model;
  prompts := model_prompts;
  default_prompt_name := model_default_prompt_name;
  SentenceTransformer_encode := fun model inputs _ w =>
    match w with
    | Some e => (Raise e, None)
    | None =>
        (Return (map (fun _ => repeat 0%Z (model_dimension model)) inputs), None)
    end;
  GpuEmbeddingUtil_get_device_type := fun n w =>
    (Return (if Nat.ltb n 64 then "cpu" else "cuda"), w);
  SentenceTransformerModelCache_initialize_model := fun name _ _ w =>
    (Return (model_of_name name), w);
  SentenceTransformerModelCache_calculate_length := fun name _ w =>
    (Return (Z.of_nat (model_dimension (model_of_name name))), w)
|}.

Definition manager (name : string) : @SentenceTransformerManager collaborators :=
  @Build_SentenceTransformerManager collaborators name "/tmp/models".

Definition indexing : ExecutionContext := {| is_query_context := false |}.
Definition querying : ExecutionContext := {| is_query_context := true |}.

Definition tensor_size_error : PyExc :=
  MkExc RuntimeError
    "The size of tensor a (514) must match the size of tensor b (512) at non-singleton dimension 1"
    None.

Definition sequence_length_error : PyExc :=
  MkExc ValueError
    "Sequence length must be less than max_position_embeddings (got `sequence length`: 600)"
    None.

(** A text of [n] characters. *)
Fixpoint text_of_length (n : nat) : string :=
  match n with
  | O => EmptyString
  | S n' => String "a" (text_of_length n')
  end.

Definition timeout_error : PyExc :=
  MkExc (OtherClass "TimeoutError" [OtherClass "OSError" []]) "timed out" None.

Definition not_implemented_error : PyExc :=
  MkExc (OtherClass "NotImplementedError" [RuntimeError])
    "The size of tensor a (514) must match the size of tensor b (512)"
    None.

End Sample.

(** ** Collaborators that fail

    A second small world, for the errors of device selection and model
    acquisition: the state of the world says which of the two is out of
    order, and with what error. *)
Module Outage.

Record Faults : Type := {
  device_fault : option PyExc;
  cache_fault : option PyExc
}.

Definition collaborators : Collaborators := {|
  World := Faults;
  DeviceType := string;
  Path := string;
  Image := nat;
  Float := Z;
  SentenceTransformer := Sample.Model;
  prompts := Sample.model_prompts;
  default_prompt_name := Sample.model_default_prompt_name;
  SentenceTransformer_encode := fun model inputs _ w =>
    (Return (map (fun _ => repeat 0%Z (Sample.model_dimension model)) inputs),
     w);
  GpuEmbeddingUtil_get_device_type := fun _ w =>
    match device_fault w with
    | Some e => (Raise e, w)
    | None => (Return "cpu", w)
    end;
  SentenceTransformerModelCache_initialize_model := fun name _ _ w =>
    match cache_fault w with
    | Some e => (Raise e, w)
    | None => (Return (Sample.model_of_name name), w)
    end;
  SentenceTransformerModelCache_calculate_length := fun name _ w =>
    match cache_fault w with
    | Some e => (Raise e, w)
    | None =>
        (Return (Z.of_nat (Sample.model_dimension (Sample.model_of_name name))),
         w)
    end
|}.

Definition manager (name : string) : @SentenceTransformerManager collaborators :=
  @Build_SentenceTransformerManager collaborators name "/tmp/models".

(** The device selector fails with an error that, raised by [encode], would
    be translated. *)
Definition device_down : Faults :=
  {| device_fault := Some Sample.tensor_size_error; cache_fault := None |}.

(** The model cache fails likewise. *)
Definition cache_down : Faults :=
  {| device_fault := None; cache_fault := Some Sample.sequence_length_error |}.

End Outage.

(** * Properties *)

(** ** Strings *)

Lemma append_cons (c : ascii) (a b : string) :
  String c a ++ b = String c (a ++ b).
Proof. reflexivity. Qed.

Lemma append_nil (b : string) : "" ++ b = b.
Proof. reflexivity. Qed.

Lemma prefix_spec (p s : string) :
  String.prefix p s = true <-> exists r, s = p ++ r.
Proof.
  revert s; induction p as [|a p IH]; intros s.
  - split; [intros _; exists s; reflexivity | now destruct s].
  - destruct s as [|b s]; simpl.
    + split; [discriminate | intros [r Hr]; discriminate].
    + destruct (Ascii.ascii_dec a b) as [->|Hab].
      * rewrite IH. split; intros [r Hr]; exists r.
        -- now rewrite append_cons, Hr.
        -- rewrite append_cons in Hr. now injection Hr.
      * split; [discriminate|].
        intros [r Hr]. rewrite append_cons in Hr. injection Hr; congruence.
Qed.

Lemma startswith_spec (s p : string) :
  startswith s p = true <-> exists r, s = p ++ r.
Proof. apply prefix_spec. Qed.

Lemma string_app_assoc (a b c : string) : (a ++ b) ++ c = a ++ (b ++ c).
Proof.
  induction a as [|x a IH]; [reflexivity|].
  now rewrite !append_cons, IH.
Qed.

(** [needle in hay] holds exactly when [hay] is some text, [needle], some
    text. *)
Lemma contains_spec (needle hay : string) :
  contains needle hay = true <-> exists a b, hay = a ++ needle ++ b.
Proof.
  induction hay as [|c hay IH]; cbn [contains].
  - rewrite orb_false_r, prefix_spec. split.
    + intros [r Hr]. exists "", r. exact Hr.
    + intros [a [b Hab]]. destruct a as [|x a]; [|discriminate].
      exists b. exact Hab.
  - rewrite orb_true_iff, prefix_spec, IH. split.
    + intros [[r Hr]|[a [b Hab]]].
      * exists "", r. exact Hr.
      * exists (String c a), b. now rewrite append_cons, Hab.
    + intros [a [b Hab]]. destruct a as [|x a].
      * left. exists b. exact Hab.
      * right. exists a, b. rewrite append_cons in Hab. now injection Hab.
Qed.

Lemma contains_middle (a needle b : string) :
  contains needle (a ++ needle ++ b) = true.
Proof. apply contains_spec. now exists a, b. Qed.

(** ** The maximum *)

(** [m] is the largest element of [xs]. *)
Definition is_max (m : nat) (xs : list nat) : Prop :=
  m ∈ xs /\ forall y, y ∈ xs -> y <= m.

Lemma foldl_max_is_max (x : nat) (rest : list nat) :
  is_max (foldl Nat.max x rest) (x :: rest).
Proof.
  revert x; induction rest as [|y rest IH]; intros x; simpl.
  - split; [left | intros y Hy]. apply list_elem_of_singleton in Hy. lia.
  - destruct (IH (Nat.max x y)) as [Hin Hle]. split.
    + apply elem_of_cons in Hin as [Heq|Hin].
      * rewrite Heq. destruct (Nat.max_spec x y) as [[_ ->]|[_ ->]].
        -- right; left.
        -- left.
      * right; right. exact Hin.
    + intros z Hz.
      assert (Hxy : x <= foldl Nat.max (Nat.max x y) rest
                    /\ y <= foldl Nat.max (Nat.max x y) rest).
      { pose proof (Hle (Nat.max x y) ltac:(left)). lia. }
      apply elem_of_cons in Hz as [->|Hz]; [lia|].
      apply elem_of_cons in Hz as [->|Hz]; [lia|].
      apply Hle. right. exact Hz.
Qed.

(** [max] returns on every non-empty sequence, with its largest element. *)
Lemma py_max_nonempty (xs : list nat) :
  xs <> [] -> exists m, py_max xs = Return m /\ is_max m xs.
Proof.
  destruct xs as [|x rest]; [congruence|]. intros _.
  exists (foldl Nat.max x rest). split; [reflexivity | apply foldl_max_is_max].
Qed.

Lemma is_max_unique (m m' : nat) (xs : list nat) :
  is_max m xs -> is_max m' xs -> m = m'.
Proof.
  intros [Hin Hle] [Hin' Hle']. apply Hle' in Hin. apply Hle in Hin'. lia.
Qed.


(** ** The failure classifier *)

Section Classifier.
Context `{C : Collaborators}.
Implicit Types (self : SentenceTransformerManager) (e : PyExc)
  (batch : list (EmbeddingInput Image)).

(** The classifier translates [e]: the table has a predicate for the exact
    type of [e] and the predicate holds of [e]. *)
Definition translates (e : PyExc) : bool :=
  match EXCEEDED_LENGTH_EXCEPTION_PREDICATE_BY_EXCEPTION_TYPE (exc_type e) with
  | Some predicate => predicate e
  | None => false
  end.

(** The error raised in place of [e]. *)
Definition translated self e (longest_input_len : nat) : PyExc :=
  MkExc EmbeddingException (exceeded_length_message self longest_input_len)
    (Some e).

Lemma translates_RuntimeError e :
  exc_type e = RuntimeError ->
  translates e
  = contains "The size of tensor a" (exc_str e)
    && contains "must match the size of tensor b" (exc_str e).
Proof. intros H. unfold translates. now rewrite H. Qed.

Lemma translates_ValueError e :
  exc_type e = ValueError ->
  translates e
  = startswith (exc_str e)
      "Sequence length must be less than max_position_embeddings".
Proof. intros H. unfold translates. now rewrite H. Qed.

Lemma translates_other_class e :
  is_RuntimeError (exc_type e) = false ->
  is_ValueError (exc_type e) = false ->
  translates e = false.
Proof. unfold translates. destruct (exc_type e); simpl; congruence. Qed.

Lemma handle_not_translated self e batch :
  translates e = false ->
  __handle_exceeded_length_exception self e batch = Raise e.
Proof.
  unfold translates, __handle_exceeded_length_exception.
  destruct (EXCEEDED_LENGTH_EXCEPTION_PREDICATE_BY_EXCEPTION_TYPE (exc_type e))
    as [predicate|]; [|reflexivity].
  now intros ->.
Qed.

Lemma handle_translated self e batch :
  translates e = true ->
  __handle_exceeded_length_exception self e batch
  = match py_max (map input_len batch) with
    | Return longest_input_len => Raise (translated self e longest_input_len)
    | Raise max_error => Raise max_error
    end.
Proof.
  unfold translates, __handle_exceeded_length_exception.
  destruct (EXCEEDED_LENGTH_EXCEPTION_PREDICATE_BY_EXCEPTION_TYPE (exc_type e))
    as [predicate|]; [|discriminate].
  now intros ->.
Qed.

Lemma handle_translated_nonempty self e batch :
  translates e = true -> batch <> [] ->
  exists longest_input_len,
    is_max longest_input_len (map input_len batch)
    /\ __handle_exceeded_length_exception self e batch
       = Raise (translated self e longest_input_len).
Proof.
  intros Ht Hne. rewrite (handle_translated _ _ _ Ht).
  destruct (py_max_nonempty (map input_len batch)) as [m [Hm Hmax]].
  { destruct batch; [congruence | discriminate]. }
  exists m. now rewrite Hm.
Qed.

(** No path of the classifier reaches the end of its body. *)
Lemma handle_always_raises self e batch :
  exists raised, __handle_exceeded_length_exception self e batch = Raise raised.
Proof.
  destruct (translates e) eqn:Ht.
  - rewrite (handle_translated _ _ _ Ht).
    destruct (py_max (map input_len batch)); eauto.
  - rewrite (handle_not_translated _ _ _ Ht). eauto.
Qed.

End Classifier.

(** ** Runs of the methods *)

Section Runs.
Context `{C : Collaborators}.
Implicit Types (self : SentenceTransformerManager) (e : PyExc)
  (batch : list (EmbeddingInput Image)) (context : ExecutionContext)
  (w : World).

(** *** The equations of the monad *)

Lemma bind_return {A B} (m : M A) (k : A -> M B) w (a : A) w1 t1 :
  m w = Build_Run (Return a) w1 t1 ->
  bind m k w
  = Build_Run (outcome (k a w1)) (world_after (k a w1)) (t1 ++ calls (k a w1)).
Proof. intros H. unfold bind. now rewrite H. Qed.

Lemma bind_raise {A B} (m : M A) (k : A -> M B) w e w1 t1 :
  m w = Build_Run (Raise e) w1 t1 ->
  bind m k w = Build_Run (Raise e) w1 t1.
Proof. intros H. unfold bind. now rewrite H. Qed.

Lemma invoke_run {A} (c : Call) (f : World -> Outcome A * World) w o w1 :
  f w = (o, w1) -> invoke c f w = Build_Run o w1 [c].
Proof. intros H. unfold invoke. now rewrite H. Qed.

Lemma try_except_return {A} (body : M A) catches handler w (a : A) w1 t1 :
  body w = Build_Run (Return a) w1 t1 ->
  try_except body catches handler w = Build_Run (Return a) w1 t1.
Proof. intros H. unfold try_except. now rewrite H. Qed.

Lemma try_except_uncaught {A} (body : M A) catches handler w e w1 t1 :
  body w = Build_Run (Raise e) w1 t1 ->
  catches e = false ->
  try_except body catches handler w = Build_Run (Raise e) w1 t1.
Proof. intros H Hc. unfold try_except. rewrite H. simpl. now rewrite Hc. Qed.

Lemma try_except_caught {A} (body : M A) catches handler w e w1 t1 :
  body w = Build_Run (Raise e) w1 t1 ->
  catches e = true ->
  try_except body catches handler w
  = Build_Run (outcome (handler e w1)) (world_after (handler e w1))
      (t1 ++ calls (handler e w1)).
Proof. intros H Hc. unfold try_except. rewrite H. simpl. now rewrite Hc. Qed.

(** *** The runs of [_embed] *)

(** The calls [_embed] makes up to and including [encode], when the device
    selector returns [device_type] and the cache returns [model]. *)
Definition calls_to_encode self batch context (device_type : DeviceType)
    (model : SentenceTransformer) : list Call :=
  [Call_get_device_type (length batch);
   Call_initialize_model (_model_name self) device_type (_model_cache_dir self);
   Call_encode model batch (_calculate_prompt_name model context)].

Lemma get_embedding_model_run self (n : nat) w device_type w1 model w2 :
  GpuEmbeddingUtil_get_device_type n w = (Return device_type, w1) ->
  SentenceTransformerModelCache_initialize_model
    (_model_name self) device_type (_model_cache_dir self) w1
  = (Return model, w2) ->
  _get_embedding_model self n w
  = Build_Run (Return model) w2
      [Call_get_device_type n;
       Call_initialize_model (_model_name self) device_type
         (_model_cache_dir self)].
Proof.
  intros Hd Hm. unfold _get_embedding_model.
  rewrite (bind_return _ _ _ _ _ _ (invoke_run _ _ _ _ _ Hd)).
  rewrite (bind_return _ _ _ _ _ _ (invoke_run _ _ _ _ _ Hm)).
  reflexivity.
Qed.

Lemma get_embedding_model_device_raises self (n : nat) w e w1 :
  GpuEmbeddingUtil_get_device_type n w = (Raise e, w1) ->
  _get_embedding_model self n w
  = Build_Run (Raise e) w1 [Call_get_device_type n].
Proof.
  intros Hd. unfold _get_embedding_model.
  now rewrite (bind_raise _ _ _ _ _ _ (invoke_run _ _ _ _ _ Hd)).
Qed.

Lemma get_embedding_model_cache_raises self (n : nat) w device_type w1 e w2 :
  GpuEmbeddingUtil_get_device_type n w = (Return device_type, w1) ->
  SentenceTransformerModelCache_initialize_model
    (_model_name self) device_type (_model_cache_dir self) w1
  = (Raise e, w2) ->
  _get_embedding_model self n w
  = Build_Run (Raise e) w2
      [Call_get_device_type n;
       Call_initialize_model (_model_name self) device_type
         (_model_cache_dir self)].
Proof.
  intros Hd Hm. unfold _get_embedding_model.
  rewrite (bind_return _ _ _ _ _ _ (invoke_run _ _ _ _ _ Hd)).
  rewrite (bind_raise _ _ _ _ _ _ (invoke_run _ _ _ _ _ Hm)).
  reflexivity.
Qed.

Lemma embed_run_device_raises self batch context w e w1 :
  GpuEmbeddingUtil_get_device_type (length batch) w = (Raise e, w1) ->
  _embed self batch context w
  = Build_Run (Raise e) w1 [Call_get_device_type (length batch)].
Proof.
  intros Hd. unfold _embed.
  now rewrite (bind_raise _ _ _ _ _ _
                 (get_embedding_model_device_raises self _ _ _ _ Hd)).
Qed.

Lemma embed_run_cache_raises self batch context w device_type w1 e w2 :
  GpuEmbeddingUtil_get_device_type (length batch) w = (Return device_type, w1) ->
  SentenceTransformerModelCache_initialize_model
    (_model_name self) device_type (_model_cache_dir self) w1
  = (Raise e, w2) ->
  _embed self batch context w
  = Build_Run (Raise e) w2
      [Call_get_device_type (length batch);
       Call_initialize_model (_model_name self) device_type
         (_model_cache_dir self)].
Proof.
  intros Hd Hm. unfold _embed.
  now rewrite (bind_raise _ _ _ _ _ _
                 (get_embedding_model_cache_raises self _ _ _ _ _ _ Hd Hm)).
Qed.

Lemma embed_run_encode_returns self batch context w device_type w1 model w2
    (rows : ndarray) w3 :
  GpuEmbeddingUtil_get_device_type (length batch) w = (Return device_type, w1) ->
  SentenceTransformerModelCache_initialize_model
    (_model_name self) device_type (_model_cache_dir self) w1
  = (Return model, w2) ->
  SentenceTransformer_encode model batch (_calculate_prompt_name model context) w2
  = (Return rows, w3) ->
  _embed self batch context w
  = Build_Run (Return rows) w3 (calls_to_encode self batch context device_type model).
Proof.
  intros Hd Hm He. unfold _embed.
  rewrite (bind_return _ _ _ _ _ _
             (get_embedding_model_run self _ _ _ _ _ _ Hd Hm)).
  cbv zeta.
  assert (Hbody :
    bind (_encode batch model (_calculate_prompt_name model context))
      (fun a => ret (Some a)) w2
    = Build_Run (Return (Some rows)) w3
        [Call_encode model batch (_calculate_prompt_name model context)]).
  { unfold _encode.
    now rewrite (bind_return _ _ _ _ _ _ (invoke_run _ _ _ _ _ He)). }
  rewrite (bind_return _ _ _ _ _ _ (try_except_return _ _ _ _ _ _ _ Hbody)).
  reflexivity.
Qed.

Lemma embed_run_encode_raises_uncaught self batch context w device_type w1
    model w2 e w3 :
  GpuEmbeddingUtil_get_device_type (length batch) w = (Return device_type, w1) ->
  SentenceTransformerModelCache_initialize_model
    (_model_name self) device_type (_model_cache_dir self) w1
  = (Return model, w2) ->
  SentenceTransformer_encode model batch (_calculate_prompt_name model context) w2
  = (Raise e, w3) ->
  isinstance_RuntimeError_or_ValueError e = false ->
  _embed self batch context w
  = Build_Run (Raise e) w3 (calls_to_encode self batch context device_type model).
Proof.
  intros Hd Hm He Hc. unfold _embed.
  rewrite (bind_return _ _ _ _ _ _
             (get_embedding_model_run self _ _ _ _ _ _ Hd Hm)).
  cbv zeta.
  assert (Hbody :
    bind (_encode batch model (_calculate_prompt_name model context))
      (fun a => ret (Some a)) w2
    = Build_Run (Raise e) w3
        [Call_encode model batch (_calculate_prompt_name model context)]).
  { unfold _encode.
    now rewrite (bind_raise _ _ _ _ _ _ (invoke_run _ _ _ _ _ He)). }
  rewrite (bind_raise _ _ _ _ _ _
             (try_except_uncaught _ _ _ _ _ _ _ Hbody Hc)).
  reflexivity.
Qed.

Lemma embed_run_encode_raises_caught self batch context w device_type w1
    model w2 e w3 raised :
  GpuEmbeddingUtil_get_device_type (length batch) w = (Return device_type, w1) ->
  SentenceTransformerModelCache_initialize_model
    (_model_name self) device_type (_model_cache_dir self) w1
  = (Return model, w2) ->
  SentenceTransformer_encode model batch (_calculate_prompt_name model context) w2
  = (Raise e, w3) ->
  isinstance_RuntimeError_or_ValueError e = true ->
  __handle_exceeded_length_exception self e batch = Raise raised ->
  _embed self batch context w
  = Build_Run (Raise raised) w3
      (calls_to_encode self batch context device_type model
       ++ [Call_handle_exceeded_length_exception e batch]).
Proof.
  intros Hd Hm He Hc Hh. unfold _embed.
  rewrite (bind_return _ _ _ _ _ _
             (get_embedding_model_run self _ _ _ _ _ _ Hd Hm)).
  cbv zeta.
  assert (Hbody :
    bind (_encode batch model (_calculate_prompt_name model context))
      (fun a => ret (Some a)) w2
    = Build_Run (Raise e) w3
        [Call_encode model batch (_calculate_prompt_name model context)]).
  { unfold _encode.
    now rewrite (bind_raise _ _ _ _ _ _ (invoke_run _ _ _ _ _ He)). }
  assert (Hhandler :
    bind (invoke_pure (Call_handle_exceeded_length_exception e batch)
            (__handle_exceeded_length_exception self e batch))
      (fun _ => ret (@None ndarray)) w3
    = Build_Run (Raise raised) w3
        [Call_handle_exceeded_length_exception e batch]).
  { apply bind_raise. unfold invoke_pure. now rewrite Hh. }
  pose proof (try_except_caught _ _
                (fun e =>
                   bind (invoke_pure
                           (Call_handle_exceeded_length_exception e batch)
                           (__handle_exceeded_length_exception self e batch))
                     (fun _ => ret None))
                _ _ _ _ Hbody Hc) as Htry.
  cbv beta in Htry. rewrite Hhandler in Htry. cbn [outcome world_after calls] in Htry.
  rewrite (bind_raise _ _ _ _ _ _ Htry).
  reflexivity.
Qed.

(** An error that is not an instance of the two classes is not translated. *)
Lemma uncaught_not_translated e :
  isinstance_RuntimeError_or_ValueError e = false -> translates e = false.
Proof.
  unfold isinstance_RuntimeError_or_ValueError. intros H.
  apply orb_false_iff in H as [Hr Hv]. apply translates_other_class.
  - destruct (exc_type e); simpl in *; congruence.
  - destruct (exc_type e); simpl in *; congruence.
Qed.

Lemma translates_caught e :
  translates e = true -> isinstance_RuntimeError_or_ValueError e = true.
Proof.
  intros Ht. destruct (isinstance_RuntimeError_or_ValueError e) eqn:Hc;
    [reflexivity|]. apply uncaught_not_translated in Hc. congruence.
Qed.

(** What [_embed] raises when [encode] raises [e]: whatever the classifier
    raises when [e] is translated, [e] itself otherwise, caught or not. *)
Lemma embed_outcome_encode_raises self batch context w device_type w1
    model w2 e w3 :
  GpuEmbeddingUtil_get_device_type (length batch) w = (Return device_type, w1) ->
  SentenceTransformerModelCache_initialize_model
    (_model_name self) device_type (_model_cache_dir self) w1
  = (Return model, w2) ->
  SentenceTransformer_encode model batch (_calculate_prompt_name model context) w2
  = (Raise e, w3) ->
  exists raised,
    __handle_exceeded_length_exception self e batch = Raise raised
    /\ outcome (_embed self batch context w)
       = Raise (if translates e then raised else e)
    /\ world_after (_embed self batch context w) = w3.
Proof.
  intros Hd Hm He.
  destruct (handle_always_raises self e batch) as [raised Hh].
  exists raised. split; [exact Hh|].
  destruct (isinstance_RuntimeError_or_ValueError e) eqn:Hc.
  - rewrite (embed_run_encode_raises_caught _ _ _ _ _ _ _ _ _ _ _ Hd Hm He Hc Hh).
    simpl. split; [|reflexivity].
    destruct (translates e) eqn:Ht; [reflexivity|].
    rewrite (handle_not_translated _ _ _ Ht) in Hh. congruence.
  - rewrite (embed_run_encode_raises_uncaught _ _ _ _ _ _ _ _ _ _ Hd Hm He Hc).
    simpl. now rewrite (uncaught_not_translated _ Hc).
Qed.

(** [embed_text] on a non-empty batch is [_embed] on the same inputs, each row
    wrapped. *)
Lemma embed_text_nonempty self (inputs : list string) context w :
  inputs <> [] ->
  embed_text self inputs context w
  = let r := _embed self (map Str inputs) context w in
    Build_Run
      (match outcome r with
       | Return rows => Return (map Vector_init rows)
       | Raise e => Raise e
       end)
      (world_after r) (calls r).
Proof.
  destruct inputs as [|s inputs]; [congruence|]. intros _.
  unfold embed_text, bind, ret. simpl.
  destruct (outcome (_embed self (Str s :: map Str inputs) context w));
    simpl; [now rewrite app_nil_r | reflexivity].
Qed.

End Runs.

(** ** Prompt selection *)

Section PromptSelection.
Context `{C : Collaborators}.

Lemma calculate_prompt_name_query (model : SentenceTransformer)
    (context : ExecutionContext) :
  QUERY_PROMPT_NAME ∈ dom (prompts model) ->
  is_query_context context = true ->
  _calculate_prompt_name model context = Some QUERY_PROMPT_NAME.
Proof.
  intros Hin Hq. unfold _calculate_prompt_name.
  now rewrite (bool_decide_eq_true_2 _ Hin), Hq.
Qed.

Lemma calculate_prompt_name_default (model : SentenceTransformer)
    (context : ExecutionContext) :
  ~ (QUERY_PROMPT_NAME ∈ dom (prompts model)
     /\ is_query_context context = true) ->
  _calculate_prompt_name model context = default_prompt_name model.
Proof.
  intros Hn. unfold _calculate_prompt_name.
  destruct (bool_decide (QUERY_PROMPT_NAME ∈ dom (prompts model))) eqn:Hd;
    [|reflexivity].
  destruct (is_query_context context) eqn:Hq; [|reflexivity].
  exfalso. apply Hn. split; [|reflexivity].
  apply bool_decide_eq_true in Hd. exact Hd.
Qed.

End PromptSelection.

(** C1 (amended): the selected prompt name is ["query"] whenever the model's
    prompts contain ["query"] and the context is a query context; in every
    other case it is the model's default prompt name, which may be absent and
    may itself be ["query"].  So the selected name is ["query"] exactly when
    the condition holds or the default prompt name is ["query"]. *)
Theorem C1_calculate_prompt_name `{C : Collaborators}
    (model : SentenceTransformer) (context : ExecutionContext) :
  (QUERY_PROMPT_NAME ∈ dom (prompts model)
   /\ is_query_context context = true ->
   _calculate_prompt_name model context = Some QUERY_PROMPT_NAME)
  /\ (~ (QUERY_PROMPT_NAME ∈ dom (prompts model)
         /\ is_query_context context = true) ->
      _calculate_prompt_name model context = default_prompt_name model)
  /\ (_calculate_prompt_name model context = Some QUERY_PROMPT_NAME <->
      (QUERY_PROMPT_NAME ∈ dom (prompts model)
       /\ is_query_context context = true)
      \/ default_prompt_name model = Some QUERY_PROMPT_NAME).
Proof.
  assert (Hdec : (QUERY_PROMPT_NAME ∈ dom (prompts model)
                  /\ is_query_context context = true)
                 \/ ~ (QUERY_PROMPT_NAME ∈ dom (prompts model)
                       /\ is_query_context context = true)).
  { destruct (decide (QUERY_PROMPT_NAME ∈ dom (prompts model))) as [Hin|Hin];
      destruct (is_query_context context); intuition congruence. }
  split; [|split].
  - intros [Hin Hq]. now apply calculate_prompt_name_query.
  - apply calculate_prompt_name_default.
  - destruct Hdec as [[Hin Hq]|Hn].
    + rewrite (calculate_prompt_name_query _ _ Hin Hq). intuition.
    + rewrite (calculate_prompt_name_default _ _ Hn). intuition.
Qed.

(** ** Orchestration: what [_embed] and [embed_text] call, and what they
    raise *)

Section Orchestration.
Context `{C : Collaborators}.
Implicit Types (self : SentenceTransformerManager) (e : PyExc)
  (batch : list (EmbeddingInput Image)) (context : ExecutionContext)
  (w : World).

Lemma input_len_Str (inputs : list string) :
  map input_len (map (@Str Image) inputs) = map String.length inputs.
Proof. induction inputs as [|s inputs IH]; simpl; [reflexivity | now f_equal]. Qed.

Lemma map_Str_nonempty (inputs : list string) :
  inputs <> [] -> map (@Str Image) inputs <> [].
Proof. destruct inputs; [congruence | discriminate]. Qed.

Lemma embed_text_raises self (inputs : list string) context w e :
  inputs <> [] ->
  outcome (_embed self (map Str inputs) context w) = Raise e ->
  outcome (embed_text self inputs context w) = Raise e.
Proof.
  intros Hne He. rewrite (embed_text_nonempty _ _ _ _ Hne). simpl.
  now rewrite He.
Qed.

Lemma embed_text_calls self (inputs : list string) context w :
  inputs <> [] ->
  calls (embed_text self inputs context w)
  = calls (_embed self (map Str inputs) context w).
Proof. intros Hne. now rewrite (embed_text_nonempty _ _ _ _ Hne). Qed.

(** A translated error surfaces from [_embed] as the capacity-exceeded
    error. *)
Lemma embed_raises_translated self batch context w device_type w1 model w2
    e w3 :
  GpuEmbeddingUtil_get_device_type (length batch) w = (Return device_type, w1) ->
  SentenceTransformerModelCache_initialize_model
    (_model_name self) device_type (_model_cache_dir self) w1
  = (Return model, w2) ->
  SentenceTransformer_encode model batch (_calculate_prompt_name model context) w2
  = (Raise e, w3) ->
  translates e = true -> batch <> [] ->
  exists longest_input_len,
    is_max longest_input_len (map input_len batch)
    /\ outcome (_embed self batch context w)
       = Raise (translated self e longest_input_len).
Proof.
  intros Hd Hm He Ht Hne.
  destruct (embed_outcome_encode_raises self _ context _ _ _ _ _ _ _ Hd Hm He)
    as [raised [Hh [Ho _]]].
  destruct (handle_translated_nonempty self e batch Ht Hne) as [m [Hmax Hh']].
  exists m. split; [exact Hmax|].
  rewrite Ho, Ht. congruence.
Qed.

(** An error that is not translated surfaces from [_embed] as it is. *)
Lemma embed_raises_original self batch context w device_type w1 model w2
    e w3 :
  GpuEmbeddingUtil_get_device_type (length batch) w = (Return device_type, w1) ->
  SentenceTransformerModelCache_initialize_model
    (_model_name self) device_type (_model_cache_dir self) w1
  = (Return model, w2) ->
  SentenceTransformer_encode model batch (_calculate_prompt_name model context) w2
  = (Raise e, w3) ->
  translates e = false ->
  outcome (_embed self batch context w) = Raise e.
Proof.
  intros Hd Hm He Ht.
  destruct (embed_outcome_encode_raises self _ context _ _ _ _ _ _ _ Hd Hm He)
    as [raised [Hh [Ho _]]].
  now rewrite Ho, Ht.
Qed.

(** The calls of [_embed], whatever the collaborators do: the device
    selector first, with the size of the batch, and only once; the cache with
    the manager's model name and cache directory and the device the selector
    returned; the classifier only with the batch itself. *)
Lemma embed_calls self batch context w :
  exists rest,
    calls (_embed self batch context w)
    = Call_get_device_type (length batch) :: rest
    /\ (forall n, Call_get_device_type n ∉ rest)
    /\ (forall name device_type dir,
          Call_initialize_model name device_type dir ∈ rest ->
          name = _model_name self /\ dir = _model_cache_dir self
          /\ (GpuEmbeddingUtil_get_device_type (length batch) w).1
             = Return device_type)
    /\ (forall e b,
          Call_handle_exceeded_length_exception e b ∈ rest -> b = batch).
Proof.
  destruct (GpuEmbeddingUtil_get_device_type (length batch) w)
    as [[device_type|e] w1] eqn:Hd.
  2:{ rewrite (embed_run_device_raises _ _ _ _ _ _ Hd). cbn [calls].
      exists []. split; [reflexivity|]. split; [|split].
      - intros n Hin. now apply not_elem_of_nil in Hin.
      - intros name d dir Hin. now apply not_elem_of_nil in Hin.
      - intros e' b Hin. now apply not_elem_of_nil in Hin. }
  destruct (SentenceTransformerModelCache_initialize_model
              (_model_name self) device_type (_model_cache_dir self) w1)
    as [[model|e] w2] eqn:Hm.
  2:{ rewrite (embed_run_cache_raises _ _ _ _ _ _ _ _ Hd Hm). cbn [calls].
      eexists. split; [reflexivity|]. split; [|split].
      - intros n Hin. apply list_elem_of_singleton in Hin. discriminate.
      - intros name d dir Hin. apply list_elem_of_singleton in Hin.
        injection Hin as -> -> ->. auto.
      - intros e' b Hin. apply list_elem_of_singleton in Hin. discriminate. }
  assert (Hinit : forall name d dir (l : list Call),
             Call_initialize_model name d dir
             ∈ Call_initialize_model (_model_name self) device_type
                 (_model_cache_dir self) :: l ->
             (forall name' d' dir', Call_initialize_model name' d' dir' ∉ l) ->
             name = _model_name self /\ dir = _model_cache_dir self
             /\ Return device_type = Return d).
  { intros name d dir l Hin Hl. apply elem_of_cons in Hin as [Heq|Hin].
    - injection Heq as -> -> ->. auto.
    - exfalso. eapply Hl; eauto. }
  destruct (SentenceTransformer_encode model batch
              (_calculate_prompt_name model context) w2)
    as [[rows|e] w3] eqn:He.
  { rewrite (embed_run_encode_returns _ _ _ _ _ _ _ _ _ _ Hd Hm He).
    unfold calls_to_encode. cbn [calls app].
    eexists. split; [reflexivity|]. split; [|split].
    - intros n Hin. rewrite !elem_of_cons, elem_of_nil in Hin.
      intuition discriminate.
    - intros name d dir Hin. apply Hinit in Hin as (-> & -> & Hr).
      + now injection Hr as ->.
      + intros ? ? ? Hl. apply list_elem_of_singleton in Hl. discriminate.
    - intros e' b Hin. rewrite !elem_of_cons, elem_of_nil in Hin.
      intuition discriminate. }
  destruct (isinstance_RuntimeError_or_ValueError e) eqn:Hc.
  - destruct (handle_always_raises self e batch) as [raised Hh].
    rewrite (embed_run_encode_raises_caught _ _ _ _ _ _ _ _ _ _ _
               Hd Hm He Hc Hh).
    unfold calls_to_encode. cbn [calls app].
    eexists. split; [reflexivity|]. split; [|split].
    + intros n Hin. rewrite !elem_of_cons, elem_of_nil in Hin.
      intuition discriminate.
    + intros name d dir Hin. apply Hinit in Hin as (-> & -> & Hr).
      * now injection Hr as ->.
      * intros ? ? ? Hl. rewrite !elem_of_cons, elem_of_nil in Hl.
        intuition discriminate.
    + intros e' b Hin. rewrite !elem_of_cons, elem_of_nil in Hin.
      destruct Hin as [Hin|[Hin|[Hin|[]]]]; try discriminate.
      now injection Hin.
  - rewrite (embed_run_encode_raises_uncaught _ _ _ _ _ _ _ _ _ _
               Hd Hm He Hc).
    unfold calls_to_encode. cbn [calls app].
    eexists. split; [reflexivity|]. split; [|split].
    + intros n Hin. rewrite !elem_of_cons, elem_of_nil in Hin.
      intuition discriminate.
    + intros name d dir Hin. apply Hinit in Hin as (-> & -> & Hr).
      * now injection Hr as ->.
      * intros ? ? ? Hl. apply list_elem_of_singleton in Hl. discriminate.
    + intros e' b Hin. rewrite !elem_of_cons, elem_of_nil in Hin.
      intuition discriminate.
Qed.

End Orchestration.

(** ** Failure translation *)

(** C2: on a non-empty batch, when [encode] raises a [RuntimeError] whose
    message contains both "The size of tensor a" and "must match the size of
    tensor b", the batch-embedding primitive, and [embed_text] on a batch of
    strings, raise the capacity-exceeded error, reporting the largest
    [input_len] of the batch (the length of a string, zero for an image);
    when one of the two texts is missing, the [RuntimeError] itself comes
    out. *)
Theorem C2_runtime_error_translation `{C : Collaborators}
    (self : SentenceTransformerManager) (batch : list (EmbeddingInput Image))
    (context : ExecutionContext) (w : World) device_type w1 model w2 e w3 :
  batch <> [] ->
  GpuEmbeddingUtil_get_device_type (length batch) w = (Return device_type, w1) ->
  SentenceTransformerModelCache_initialize_model
    (_model_name self) device_type (_model_cache_dir self) w1
  = (Return model, w2) ->
  SentenceTransformer_encode model batch (_calculate_prompt_name model context) w2
  = (Raise e, w3) ->
  exc_type e = RuntimeError ->
  (contains "The size of tensor a" (exc_str e) = true ->
   contains "must match the size of tensor b" (exc_str e) = true ->
   exists longest_input_len,
     is_max longest_input_len (map input_len batch)
     /\ outcome (_embed self batch context w)
        = Raise (MkExc EmbeddingException
                   (exceeded_length_message self longest_input_len) (Some e))
     /\ forall inputs : list string,
          batch = map Str inputs ->
          is_max longest_input_len (map String.length inputs)
          /\ outcome (embed_text self inputs context w)
             = Raise (MkExc EmbeddingException
                        (exceeded_length_message self longest_input_len)
                        (Some e)))
  /\ (contains "The size of tensor a" (exc_str e) = false
      \/ contains "must match the size of tensor b" (exc_str e) = false ->
      outcome (_embed self batch context w) = Raise e
      /\ forall inputs : list string,
           batch = map Str inputs ->
           outcome (embed_text self inputs context w) = Raise e).
Proof.
  intros Hne Hd Hm He Hty. split.
  - intros Ha Hb.
    assert (Ht : translates e = true).
    { now rewrite (translates_RuntimeError _ Hty), Ha, Hb. }
    destruct (embed_raises_translated self _ context _ _ _ _ _ _ _
                Hd Hm He Ht Hne) as [m [Hmax Ho]].
    exists m. split; [exact Hmax|]. split; [exact Ho|].
    intros inputs ->. split.
    + now rewrite <- input_len_Str.
    + apply embed_text_raises; [|exact Ho]. now destruct inputs.
  - intros Hab.
    assert (Ht : translates e = false).
    { rewrite (translates_RuntimeError _ Hty). apply andb_false_iff. exact Hab. }
    pose proof (embed_raises_original self _ context _ _ _ _ _ _ _
                  Hd Hm He Ht) as Ho.
    split; [exact Ho|].
    intros inputs ->. apply embed_text_raises; [|exact Ho]. now destruct inputs.
Qed.

(** C3: on a non-empty batch, when [encode] raises a [ValueError] whose
    message begins with "Sequence length must be less than
    max_position_embeddings", the batch-embedding primitive, and [embed_text]
    on a batch of strings, raise the capacity-exceeded error; a [ValueError]
    with any other message comes out itself. *)
Theorem C3_value_error_translation `{C : Collaborators}
    (self : SentenceTransformerManager) (batch : list (EmbeddingInput Image))
    (context : ExecutionContext) (w : World) device_type w1 model w2 e w3 :
  batch <> [] ->
  GpuEmbeddingUtil_get_device_type (length batch) w = (Return device_type, w1) ->
  SentenceTransformerModelCache_initialize_model
    (_model_name self) device_type (_model_cache_dir self) w1
  = (Return model, w2) ->
  SentenceTransformer_encode model batch (_calculate_prompt_name model context) w2
  = (Raise e, w3) ->
  exc_type e = ValueError ->
  (startswith (exc_str e)
     "Sequence length must be less than max_position_embeddings" = true ->
   exists longest_input_len,
     is_max longest_input_len (map input_len batch)
     /\ outcome (_embed self batch context w)
        = Raise (MkExc EmbeddingException
                   (exceeded_length_message self longest_input_len) (Some e))
     /\ forall inputs : list string,
          batch = map Str inputs ->
          outcome (embed_text self inputs context w)
          = Raise (MkExc EmbeddingException
                     (exceeded_length_message self longest_input_len)
                     (Some e)))
  /\ (startswith (exc_str e)
        "Sequence length must be less than max_position_embeddings" = false ->
      outcome (_embed self batch context w) = Raise e
      /\ forall inputs : list string,
           batch = map Str inputs ->
           outcome (embed_text self inputs context w) = Raise e).
Proof.
  intros Hne Hd Hm He Hty. split.
  - intros Hs.
    assert (Ht : translates e = true).
    { now rewrite (translates_ValueError _ Hty). }
    destruct (embed_raises_translated self _ context _ _ _ _ _ _ _
                Hd Hm He Ht Hne) as [m [Hmax Ho]].
    exists m. split; [exact Hmax|]. split; [exact Ho|].
    intros inputs ->. apply embed_text_raises; [|exact Ho]. now destruct inputs.
  - intros Hs.
    assert (Ht : translates e = false).
    { now rewrite (translates_ValueError _ Hty). }
    pose proof (embed_raises_original self _ context _ _ _ _ _ _ _
                  Hd Hm He Ht) as Ho.
    split; [exact Ho|].
    intros inputs ->. apply embed_text_raises; [|exact Ho]. now destruct inputs.
Qed.

(** C4: an error raised by [encode] whose type is neither [RuntimeError] nor
    [ValueError] comes out of [embed_text] as it is; whatever [encode]
    raises, [embed_text] raises that error or its translation; and the
    classifier raises on every error and every batch, it never returns. *)
Theorem C4_unrelated_errors_propagate `{C : Collaborators}
    (self : SentenceTransformerManager) (inputs : list string)
    (context : ExecutionContext) (w : World) device_type w1 model w2 e w3 :
  inputs <> [] ->
  GpuEmbeddingUtil_get_device_type (length inputs) w = (Return device_type, w1) ->
  SentenceTransformerModelCache_initialize_model
    (_model_name self) device_type (_model_cache_dir self) w1
  = (Return model, w2) ->
  SentenceTransformer_encode model (map Str inputs)
    (_calculate_prompt_name model context) w2
  = (Raise e, w3) ->
  (exc_type e <> RuntimeError -> exc_type e <> ValueError ->
   outcome (embed_text self inputs context w) = Raise e
   /\ world_after (embed_text self inputs context w) = w3)
  /\ (outcome (embed_text self inputs context w) = Raise e
      \/ exists longest_input_len,
           outcome (embed_text self inputs context w)
           = Raise (MkExc EmbeddingException
                      (exceeded_length_message self longest_input_len)
                      (Some e)))
  /\ (forall (exception : PyExc) (batch : list (EmbeddingInput Image)),
        exists raised,
          __handle_exceeded_length_exception self exception batch
          = Raise raised)
  /\ (forall (exception : PyExc) (batch : list (EmbeddingInput Image)),
        batch <> [] ->
        __handle_exceeded_length_exception self exception batch
        = Raise exception
        \/ exists longest_input_len,
             __handle_exceeded_length_exception self exception batch
             = Raise (MkExc EmbeddingException
                        (exceeded_length_message self longest_input_len)
                        (Some exception))).
Proof.
  intros Hne Hd Hm He.
  rewrite <- (length_map (@Str Image)) in Hd.
  pose proof (map_Str_nonempty _ Hne) as Hne'.
  split; [|split; [|split]].
  - intros Hr Hv.
    assert (Ht : translates e = false).
    { apply translates_other_class; destruct (exc_type e); simpl; congruence. }
    split.
    + apply embed_text_raises; [exact Hne|].
      exact (embed_raises_original self _ context _ _ _ _ _ _ _ Hd Hm He Ht).
    + rewrite (embed_text_nonempty _ _ _ _ Hne). simpl.
      destruct (embed_outcome_encode_raises self _ context _ _ _ _ _ _ _
                  Hd Hm He) as [raised [_ [_ Hw]]].
      exact Hw.
  - destruct (translates e) eqn:Ht.
    + right.
      destruct (embed_raises_translated self _ context _ _ _ _ _ _ _
                  Hd Hm He Ht Hne') as [m [_ Ho]].
      exists m. now apply embed_text_raises.
    + left. apply embed_text_raises; [exact Hne|].
      exact (embed_raises_original self _ context _ _ _ _ _ _ _ Hd Hm He Ht).
  - intros exception batch. apply handle_always_raises.
  - intros exception batch Hb. destruct (translates exception) eqn:Ht.
    + right.
      destruct (handle_translated_nonempty self exception batch Ht Hb)
        as [m [_ Hh]].
      now exists m.
    + left. now apply handle_not_translated.
Qed.

(** ** The message of the translated error *)

Lemma contains_app_r (needle a hay : string) :
  contains needle hay = true -> contains needle (a ++ hay) = true.
Proof.
  rewrite !contains_spec. intros [x [y ->]].
  exists (a ++ x), y. now rewrite string_app_assoc.
Qed.

Lemma contains_app_l (needle b : string) :
  contains needle (needle ++ b) = true.
Proof. apply (contains_middle "" needle b). Qed.

Lemma message_contains_model_name `{C : Collaborators}
    (self : SentenceTransformerManager) (n : nat) :
  contains (_model_name self) (exceeded_length_message self n) = true.
Proof. unfold exceeded_length_message. apply contains_middle. Qed.

Lemma message_contains_length `{C : Collaborators}
    (self : SentenceTransformerManager) (n : nat) :
  contains ("Longest input length: " ++ str_of_nat n ++ " chars")
    (exceeded_length_message self n) = true.
Proof.
  unfold exceeded_length_message.
  do 5 apply contains_app_r.
  apply contains_spec. exists "", "". rewrite append_nil.
  now rewrite !string_app_assoc.
Qed.

Lemma message_contains_number `{C : Collaborators}
    (self : SentenceTransformerManager) (n : nat) :
  contains (str_of_nat n) (exceeded_length_message self n) = true.
Proof.
  unfold exceeded_length_message.
  do 6 apply contains_app_r. apply contains_app_l.
Qed.

(** C5: when the classifier translates an error (the table has a predicate
    for its type and the predicate holds) on a non-empty batch, it raises an
    [EmbeddingException] whose message contains the model name and the
    largest [input_len] of the batch in decimal (the length of a string, zero
    for an image), and whose cause is the caught error. *)
Theorem C5_translated_error_message `{C : Collaborators}
    (self : SentenceTransformerManager) (e : PyExc)
    (batch : list (EmbeddingInput Image)) (predicate : PyExc -> bool) :
  EXCEEDED_LENGTH_EXCEPTION_PREDICATE_BY_EXCEPTION_TYPE (exc_type e)
  = Some predicate ->
  predicate e = true ->
  batch <> [] ->
  exists longest_input_len raised,
    is_max longest_input_len (map input_len batch)
    /\ __handle_exceeded_length_exception self e batch = Raise raised
    /\ exc_type raised = EmbeddingException
    /\ exc_str raised
       = "Model " ++ _model_name self
         ++ " failed to encode inputs - input was too long. "
         ++ "Try shortening the input text." ++ LF
         ++ "Longest input length: " ++ str_of_nat longest_input_len
         ++ " chars"
    /\ contains (_model_name self) (exc_str raised) = true
    /\ contains (str_of_nat longest_input_len) (exc_str raised) = true
    /\ contains ("Longest input length: " ++ str_of_nat longest_input_len
                 ++ " chars") (exc_str raised) = true
    /\ exc_cause raised = Some e.
Proof.
  intros Htab Hp Hne.
  assert (Ht : translates e = true).
  { unfold translates. now rewrite Htab. }
  destruct (handle_translated_nonempty self e batch Ht Hne) as [m [Hmax Hh]].
  exists m, (translated self e m).
  split; [exact Hmax|]. split; [exact Hh|].
  split; [reflexivity|]. split; [reflexivity|].
  split; [apply message_contains_model_name|].
  split; [apply message_contains_number|].
  split; [apply message_contains_length | reflexivity].
Qed.

(** ** The empty batch *)

(** C6: on the empty sequence, in every context and world, [embed_text]
    returns the empty sequence, makes no call (no device selection, no model
    acquisition, no [encode]) and leaves the world as it was. *)
Theorem C6_embed_text_empty `{C : Collaborators}
    (self : SentenceTransformerManager) (context : ExecutionContext)
    (w : World) :
  embed_text self [] context w = Build_Run (Return []) w [].
Proof. reflexivity. Qed.

(** ** The vectors returned *)

(** C7: on [N] inputs, [N] non-zero, when [encode] returns one row per input
    and every row has the length [calculate_length] returns, [embed_text]
    returns [N] vectors, the [i]-th wrapping the [i]-th row, each of the
    length [calculate_length] returns. *)
Theorem C7_embed_text_vectors `{C : Collaborators}
    (self : SentenceTransformerManager) (inputs : list string)
    (context : ExecutionContext) (w : World) device_type w1 model w2
    (rows : list (list Float)) w3 (w' : World) (dimension : Z) :
  inputs <> [] ->
  GpuEmbeddingUtil_get_device_type (length inputs) w = (Return device_type, w1) ->
  SentenceTransformerModelCache_initialize_model
    (_model_name self) device_type (_model_cache_dir self) w1
  = (Return model, w2) ->
  SentenceTransformer_encode model (map Str inputs)
    (_calculate_prompt_name model context) w2
  = (Return rows, w3) ->
  length rows = length inputs ->
  outcome (calculate_length self w') = Return dimension ->
  (forall row, row ∈ rows -> Z.of_nat (length row) = dimension) ->
  exists vectors : list Vector,
    outcome (embed_text self inputs context w) = Return vectors
    /\ length vectors = length inputs
    /\ (forall (i : nat) (s : string),
          inputs !! i = Some s ->
          exists row,
            rows !! i = Some row /\ vectors !! i = Some (Vector_init row))
    /\ (forall v, v ∈ vectors ->
          outcome (calculate_length self w')
          = Return (Z.of_nat (vector_length v))).
Proof.
  intros Hne Hd Hm He Hlen Hdim Hrows.
  rewrite <- (length_map (@Str Image)) in Hd.
  exists (map Vector_init rows).
  split; [|split; [|split]].
  - rewrite (embed_text_nonempty _ _ _ _ Hne). cbv zeta.
    now rewrite (embed_run_encode_returns _ _ _ _ _ _ _ _ _ _ Hd Hm He).
  - now rewrite length_map.
  - intros i s Hi.
    destruct (lookup_lt_is_Some_2 rows i) as [row Hrow].
    { rewrite Hlen. eapply lookup_lt_Some; eauto. }
    exists row. split; [exact Hrow|].
    now rewrite list_lookup_fmap, Hrow.
  - intros v Hv. apply list_elem_of_fmap in Hv as [row [-> Hrow]].
    rewrite Hdim. unfold vector_length. simpl. now rewrite (Hrows _ Hrow).
Qed.

(** ** Device selection and model acquisition *)

(** C8: the batch-embedding primitive calls the device selector first, with
    the number of inputs of the batch, and never again; every call to the
    model cache's [initialize_model] has the manager's model name, the device
    the selector returned and the manager's cache directory, and that call
    follows as soon as the selector returns; the model the cache returns is
    the one used.  [calculate_length] is the cache's answer for the model
    name and the cache directory, and its only call is that one. *)
Theorem C8_collaborator_calls `{C : Collaborators}
    (self : SentenceTransformerManager) (batch : list (EmbeddingInput Image))
    (context : ExecutionContext) (w : World) :
  (exists rest,
     calls (_embed self batch context w)
     = Call_get_device_type (length batch) :: rest
     /\ forall n, Call_get_device_type n ∉ rest)
  /\ (forall name device_type dir,
        Call_initialize_model name device_type dir
        ∈ calls (_embed self batch context w) ->
        name = _model_name self /\ dir = _model_cache_dir self
        /\ (GpuEmbeddingUtil_get_device_type (length batch) w).1
           = Return device_type)
  /\ (forall device_type w1,
        GpuEmbeddingUtil_get_device_type (length batch) w
        = (Return device_type, w1) ->
        (exists rest,
           calls (_embed self batch context w)
           = Call_get_device_type (length batch)
             :: Call_initialize_model (_model_name self) device_type
                  (_model_cache_dir self)
             :: rest)
        /\ forall model w2,
             SentenceTransformerModelCache_initialize_model
               (_model_name self) device_type (_model_cache_dir self) w1
             = (Return model, w2) ->
             _get_embedding_model self (length batch) w
             = Build_Run (Return model) w2
                 [Call_get_device_type (length batch);
                  Call_initialize_model (_model_name self) device_type
                    (_model_cache_dir self)])
  /\ calculate_length self w
     = Build_Run
         (SentenceTransformerModelCache_calculate_length
            (_model_name self) (_model_cache_dir self) w).1
         (SentenceTransformerModelCache_calculate_length
            (_model_name self) (_model_cache_dir self) w).2
         [Call_calculate_length (_model_name self) (_model_cache_dir self)].
Proof.
  destruct (embed_calls self batch context w)
    as [rest [Hcalls [Hdev [Hinit _]]]].
  split; [|split; [|split]].
  - exists rest. split; [exact Hcalls | exact Hdev].
  - intros name d dir Hin. rewrite Hcalls in Hin.
    apply elem_of_cons in Hin as [Heq|Hin]; [discriminate|].
    now apply Hinit.
  - intros d w1 Hd. split.
    + destruct (SentenceTransformerModelCache_initialize_model
                  (_model_name self) d (_model_cache_dir self) w1)
        as [[model|e] w2] eqn:Hm.
      * destruct (SentenceTransformer_encode model batch
                    (_calculate_prompt_name model context) w2)
          as [[rows|e] w3] eqn:He.
        -- rewrite (embed_run_encode_returns _ _ _ _ _ _ _ _ _ _ Hd Hm He).
           unfold calls_to_encode. cbn [calls]. eauto.
        -- destruct (isinstance_RuntimeError_or_ValueError e) eqn:Hc.
           ++ destruct (handle_always_raises self e batch) as [raised Hh].
              rewrite (embed_run_encode_raises_caught _ _ _ _ _ _ _ _ _ _ _
                         Hd Hm He Hc Hh).
              unfold calls_to_encode. cbn [calls app]. eauto.
           ++ rewrite (embed_run_encode_raises_uncaught _ _ _ _ _ _ _ _ _ _
                         Hd Hm He Hc).
              unfold calls_to_encode. cbn [calls]. eauto.
      * rewrite (embed_run_cache_raises _ _ _ _ _ _ _ _ Hd Hm).
        cbn [calls]. eauto.
    + intros model w2 Hm.
      exact (get_embedding_model_run _ _ _ _ _ _ _ Hd Hm).
  - reflexivity.
Qed.

(** ** Subclasses of the two classes *)

Lemma proper_subclass_not_in_table (cls : PyClass) :
  (issubclass is_RuntimeError cls = true /\ cls <> RuntimeError)
  \/ (issubclass is_ValueError cls = true /\ cls <> ValueError) ->
  EXCEEDED_LENGTH_EXCEPTION_PREDICATE_BY_EXCEPTION_TYPE cls = None.
Proof.
  intros [[Hs Hn]|[Hs Hn]]; destruct cls; simpl in *;
    congruence || reflexivity.
Qed.

(** C9: an error whose type is a proper subclass of [RuntimeError] or of
    [ValueError] is caught by the [except] clause, finds no predicate in the
    table, and is raised again by the classifier as it is, whatever its
    message; so it comes out of the batch-embedding primitive unchanged,
    after one call of the classifier. *)
Theorem C9_subclass_not_translated `{C : Collaborators}
    (self : SentenceTransformerManager) (e : PyExc)
    (batch : list (EmbeddingInput Image)) :
  (issubclass is_RuntimeError (exc_type e) = true
   /\ exc_type e <> RuntimeError)
  \/ (issubclass is_ValueError (exc_type e) = true
      /\ exc_type e <> ValueError) ->
  isinstance_RuntimeError_or_ValueError e = true
  /\ EXCEEDED_LENGTH_EXCEPTION_PREDICATE_BY_EXCEPTION_TYPE (exc_type e) = None
  /\ __handle_exceeded_length_exception self e batch = Raise e
  /\ forall (context : ExecutionContext) (w : World) device_type w1 model w2 w3,
       GpuEmbeddingUtil_get_device_type (length batch) w
       = (Return device_type, w1) ->
       SentenceTransformerModelCache_initialize_model
         (_model_name self) device_type (_model_cache_dir self) w1
       = (Return model, w2) ->
       SentenceTransformer_encode model batch
         (_calculate_prompt_name model context) w2
       = (Raise e, w3) ->
       _embed self batch context w
       = Build_Run (Raise e) w3
           (calls_to_encode self batch context device_type model
            ++ [Call_handle_exceeded_length_exception e batch]).
Proof.
  intros Hsub.
  pose proof (proper_subclass_not_in_table _ Hsub) as Htab.
  assert (Hc : isinstance_RuntimeError_or_ValueError e = true).
  { unfold isinstance_RuntimeError_or_ValueError. apply orb_true_iff.
    destruct Hsub as [[Hs _]|[Hs _]]; auto. }
  assert (Hh : __handle_exceeded_length_exception self e batch = Raise e).
  { apply handle_not_translated. unfold translates. now rewrite Htab. }
  split; [exact Hc|]. split; [exact Htab|]. split; [exact Hh|].
  intros context w d w1 model w2 w3 Hd Hm He.
  exact (embed_run_encode_raises_caught _ _ _ _ _ _ _ _ _ _ _ Hd Hm He Hc Hh).
Qed.

(** ** The classifier is never reached with an empty batch *)

(** C10: the longest-input-length computation is a [max] over the batch,
    which raises on the empty batch (so on it the classifier would raise
    [max]'s [ValueError] for an error it translates); and in every run of
    [embed_text], every call of the classifier has the inputs of
    [embed_text] as its batch, which is not empty, so that the [max]
    returns. *)
Theorem C10_classifier_batch_nonempty `{C : Collaborators}
    (self : SentenceTransformerManager) :
  py_max (map input_len [])
  = Raise (MkExc ValueError "max() arg is an empty sequence" None)
  /\ (forall (e : PyExc) (predicate : PyExc -> bool),
        EXCEEDED_LENGTH_EXCEPTION_PREDICATE_BY_EXCEPTION_TYPE (exc_type e)
        = Some predicate ->
        predicate e = true ->
        __handle_exceeded_length_exception self e []
        = Raise (MkExc ValueError "max() arg is an empty sequence" None))
  /\ (forall (inputs : list string) (context : ExecutionContext) (w : World)
        (e : PyExc) (batch : list (EmbeddingInput Image)),
        Call_handle_exceeded_length_exception e batch
        ∈ calls (embed_text self inputs context w) ->
        batch = map Str inputs
        /\ batch <> []
        /\ exists longest_input_len,
             py_max (map input_len batch) = Return longest_input_len
             /\ is_max longest_input_len (map input_len batch)).
Proof.
  split; [reflexivity|]. split.
  - intros e predicate Htab Hp.
    unfold __handle_exceeded_length_exception. now rewrite Htab, Hp.
  - intros inputs context w e batch Hin.
    destruct inputs as [|s inputs].
    { cbn in Hin. now apply not_elem_of_nil in Hin. }
    assert (Hne : s :: inputs <> []) by discriminate.
    rewrite (embed_text_calls _ _ _ _ Hne) in Hin.
    destruct (embed_calls self (map Str (s :: inputs)) context w)
      as [rest [Hcalls [_ [_ Hhandle]]]].
    rewrite Hcalls in Hin.
    apply elem_of_cons in Hin as [Heq|Hin]; [discriminate|].
    apply Hhandle in Hin. subst batch.
    split; [reflexivity|]. split; [discriminate|].
    apply py_max_nonempty. discriminate.
Qed.

(** * Further properties of the manager *)

(** ** Every run of the batch-embedding primitive *)

Section EveryRun.
Context `{C : Collaborators}.
Implicit Types (self : SentenceTransformerManager) (e : PyExc)
  (batch : list (EmbeddingInput Image)) (context : ExecutionContext)
  (w : World).

(** The five ways a run of [_embed] can go, by what the collaborators do. *)
Inductive EmbedRun self batch context w : Run (list (list Float)) -> Prop :=
| Run_device_raises e w1 :
    GpuEmbeddingUtil_get_device_type (length batch) w = (Raise e, w1) ->
    EmbedRun self batch context w
      (Build_Run (Raise e) w1 [Call_get_device_type (length batch)])
| Run_cache_raises device_type w1 e w2 :
    GpuEmbeddingUtil_get_device_type (length batch) w
    = (Return device_type, w1) ->
    SentenceTransformerModelCache_initialize_model
      (_model_name self) device_type (_model_cache_dir self) w1
    = (Raise e, w2) ->
    EmbedRun self batch context w
      (Build_Run (Raise e) w2
         [Call_get_device_type (length batch);
          Call_initialize_model (_model_name self) device_type
            (_model_cache_dir self)])
| Run_encode_returns device_type w1 model w2 rows w3 :
    GpuEmbeddingUtil_get_device_type (length batch) w
    = (Return device_type, w1) ->
    SentenceTransformerModelCache_initialize_model
      (_model_name self) device_type (_model_cache_dir self) w1
    = (Return model, w2) ->
    SentenceTransformer_encode model batch
      (_calculate_prompt_name model context) w2
    = (Return rows, w3) ->
    EmbedRun self batch context w
      (Build_Run (Return rows) w3
         (calls_to_encode self batch context device_type model))
| Run_encode_raises_uncaught device_type w1 model w2 e w3 :
    GpuEmbeddingUtil_get_device_type (length batch) w
    = (Return device_type, w1) ->
    SentenceTransformerModelCache_initialize_model
      (_model_name self) device_type (_model_cache_dir self) w1
    = (Return model, w2) ->
    SentenceTransformer_encode model batch
      (_calculate_prompt_name model context) w2
    = (Raise e, w3) ->
    isinstance_RuntimeError_or_ValueError e = false ->
    EmbedRun self batch context w
      (Build_Run (Raise e) w3
         (calls_to_encode self batch context device_type model))
| Run_encode_raises_caught device_type w1 model w2 e w3 raised :
    GpuEmbeddingUtil_get_device_type (length batch) w
    = (Return device_type, w1) ->
    SentenceTransformerModelCache_initialize_model
      (_model_name self) device_type (_model_cache_dir self) w1
    = (Return model, w2) ->
    SentenceTransformer_encode model batch
      (_calculate_prompt_name model context) w2
    = (Raise e, w3) ->
    isinstance_RuntimeError_or_ValueError e = true ->
    __handle_exceeded_length_exception self e batch = Raise raised ->
    EmbedRun self batch context w
      (Build_Run (Raise raised) w3
         (calls_to_encode self batch context device_type model
          ++ [Call_handle_exceeded_length_exception e batch])).

Lemma embed_run_cases self batch context w :
  EmbedRun self batch context w (_embed self batch context w).
Proof.
  destruct (GpuEmbeddingUtil_get_device_type (length batch) w)
    as [[device_type|e] w1] eqn:Hd.
  2:{ rewrite (embed_run_device_raises _ _ _ _ _ _ Hd).
      now apply Run_device_raises. }
  destruct (SentenceTransformerModelCache_initialize_model
              (_model_name self) device_type (_model_cache_dir self) w1)
    as [[model|e] w2] eqn:Hm.
  2:{ rewrite (embed_run_cache_raises _ _ _ _ _ _ _ _ Hd Hm).
      now apply (Run_cache_raises _ _ _ _ _ w1). }
  destruct (SentenceTransformer_encode model batch
              (_calculate_prompt_name model context) w2)
    as [[rows|e] w3] eqn:He.
  { rewrite (embed_run_encode_returns _ _ _ _ _ _ _ _ _ _ Hd Hm He).
    now apply (Run_encode_returns _ _ _ _ _ w1 _ w2). }
  destruct (isinstance_RuntimeError_or_ValueError e) eqn:Hc.
  - destruct (handle_always_raises self e batch) as [raised Hh].
    rewrite (embed_run_encode_raises_caught _ _ _ _ _ _ _ _ _ _ _
               Hd Hm He Hc Hh).
    now apply (Run_encode_raises_caught _ _ _ _ _ w1 _ w2).
  - rewrite (embed_run_encode_raises_uncaught _ _ _ _ _ _ _ _ _ _
               Hd Hm He Hc).
    now apply (Run_encode_raises_uncaught _ _ _ _ _ w1 _ w2).
Qed.

End EveryRun.

(** ** Errors outside the [try] *)

(** X1: an error raised by the device selector comes out of [embed_text]
    as it is, whatever its type and message (the call is outside the [try],
    so even a [RuntimeError] with the tensor-size message is not translated),
    and nothing else is called: no model acquisition, no [encode], no
    classifier. *)
Theorem X1_device_selector_error_propagates `{C : Collaborators}
    (self : SentenceTransformerManager) (inputs : list string)
    (context : ExecutionContext) (w : World) e w1 :
  inputs <> [] ->
  GpuEmbeddingUtil_get_device_type (length inputs) w = (Raise e, w1) ->
  embed_text self inputs context w
  = Build_Run (Raise e) w1 [Call_get_device_type (length inputs)].
Proof.
  intros Hne Hd. rewrite <- (length_map (@Str Image)) in Hd.
  rewrite (embed_text_nonempty _ _ _ _ Hne). cbv zeta.
  rewrite (embed_run_device_raises _ _ _ _ _ _ Hd). cbn [outcome world_after calls].
  now rewrite length_map.
Qed.

(** X2: an error raised by the model cache's [initialize_model] comes out of
    [embed_text] as it is, whatever its type and message (it is outside the
    [try] as well), after the two calls of device selection and model
    acquisition; [encode] and the classifier are not called. *)
Theorem X2_model_cache_error_propagates `{C : Collaborators}
    (self : SentenceTransformerManager) (inputs : list string)
    (context : ExecutionContext) (w : World) device_type w1 e w2 :
  inputs <> [] ->
  GpuEmbeddingUtil_get_device_type (length inputs) w
  = (Return device_type, w1) ->
  SentenceTransformerModelCache_initialize_model
    (_model_name self) device_type (_model_cache_dir self) w1
  = (Raise e, w2) ->
  embed_text self inputs context w
  = Build_Run (Raise e) w2
      [Call_get_device_type (length inputs);
       Call_initialize_model (_model_name self) device_type
         (_model_cache_dir self)].
Proof.
  intros Hne Hd Hm. rewrite <- (length_map (@Str Image)) in Hd.
  rewrite (embed_text_nonempty _ _ _ _ Hne). cbv zeta.
  rewrite (embed_run_cache_raises _ _ _ _ _ _ _ _ Hd Hm).
  cbn [outcome world_after calls]. now rewrite length_map.
Qed.

(** ** The order of the calls *)


(** ** What a normal return carries *)

(** X4: when [embed_text] returns, either the inputs are empty and so is the
    result, or device selection, model acquisition and [encode] all returned
    in that run and the result is the rows [encode] returned, each wrapped in
    a [Vector], in the world [encode] left; in particular [embed_text] never
    returns when [encode] raises. *)
Theorem X4_embed_text_return_sound `{C : Collaborators}
    (self : SentenceTransformerManager) (inputs : list string)
    (context : ExecutionContext) (w : World) (vectors : list Vector) :
  outcome (embed_text self inputs context w) = Return vectors ->
  (inputs = [] /\ vectors = [])
  \/ (exists device_type w1 model w2 rows w3,
        GpuEmbeddingUtil_get_device_type (length inputs) w
        = (Return device_type, w1)
        /\ SentenceTransformerModelCache_initialize_model
             (_model_name self) device_type (_model_cache_dir self) w1
           = (Return model, w2)
        /\ SentenceTransformer_encode model (map Str inputs)
             (_calculate_prompt_name model context) w2
           = (Return rows, w3)
        /\ vectors = map Vector_init rows
        /\ world_after (embed_text self inputs context w) = w3).
Proof.
  destruct inputs as [|s inputs].
  { intros H. left. split; [reflexivity|]. cbn in H. now injection H. }
  assert (Hne : s :: inputs <> []) by discriminate.
  rewrite (embed_text_nonempty _ _ _ _ Hne). cbv zeta.
  intros H. right.
  destruct (embed_run_cases self (map Str (s :: inputs)) context w)
    as [e w1 Hd|d w1 e w2 Hd Hm|d w1 model w2 rows w3 Hd Hm He
        |d w1 model w2 e w3 Hd Hm He Hc|d w1 model w2 e w3 raised Hd Hm He Hc Hh];
    cbn [outcome world_after] in *; try discriminate.
  rewrite length_map in Hd.
  exists d, w1, model, w2, rows, w3.
  repeat split; try assumption. now injection H.
Qed.

(** ** The prompt name handed to [encode] *)

(** X5: for a model whose default prompt name, when it has one, is among its
    declared prompts, the prompt name selected is, when there is one, a
    declared prompt of the model, in every context. *)
Theorem X5_prompt_name_declared `{C : Collaborators}
    (model : SentenceTransformer) (context : ExecutionContext) :
  (forall p, default_prompt_name model = Some p -> p ∈ dom (prompts model)) ->
  forall p,
    _calculate_prompt_name model context = Some p -> p ∈ dom (prompts model).
Proof.
  intros Hdefault p. unfold _calculate_prompt_name.
  destruct (bool_decide (QUERY_PROMPT_NAME ∈ dom (prompts model))) eqn:Hq;
    simpl.
  - destruct (is_query_context context).
    + intros [= <-]. now apply bool_decide_eq_true in Hq.
    + apply Hdefault.
  - apply Hdefault.
Qed.

(** ** The length the classifier reports *)

Lemma is_max_perm (m : nat) (xs ys : list nat) :
  xs ≡ₚ ys -> is_max m xs -> is_max m ys.
Proof.
  intros Hp [Hin Hle]. split.
  - now rewrite <- Hp.
  - intros y Hy. apply Hle. now rewrite Hp.
Qed.

Lemma py_max_perm (xs ys : list nat) : xs ≡ₚ ys -> py_max xs = py_max ys.
Proof.
  intros Hp. destruct xs as [|x xs], ys as [|y ys].
  - reflexivity.
  - now apply Permutation_nil_l in Hp.
  - now apply Permutation_nil_r in Hp.
  - simpl. f_equal.
    eapply is_max_unique; [|apply foldl_max_is_max].
    eapply is_max_perm; [exact Hp | apply foldl_max_is_max].
Qed.

(** X6: what the classifier raises does not depend on the order of the
    batch: on two batches with the same inputs in different orders it raises
    the same error, with the same reported length. *)
Theorem X6_classifier_order_independent `{C : Collaborators}
    (self : SentenceTransformerManager) (e : PyExc)
    (batch batch' : list (EmbeddingInput Image)) :
  batch ≡ₚ batch' ->
  __handle_exceeded_length_exception self e batch
  = __handle_exceeded_length_exception self e batch'.
Proof.
  intros Hp. destruct (translates e) eqn:Ht.
  - rewrite !(handle_translated _ _ _ Ht).
    now rewrite (py_max_perm _ _ (Permutation_map input_len Hp)).
  - now rewrite !(handle_not_translated _ _ _ Ht).
Qed.

(** X7: on a non-empty batch of images only, an error the classifier
    translates is reported with the length zero: "Longest input length: 0
    chars". *)
Theorem X7_images_only_reports_zero `{C : Collaborators}
    (self : SentenceTransformerManager) (e : PyExc)
    (batch : list (EmbeddingInput Image)) (predicate : PyExc -> bool) :
  EXCEEDED_LENGTH_EXCEPTION_PREDICATE_BY_EXCEPTION_TYPE (exc_type e)
  = Some predicate ->
  predicate e = true ->
  batch <> [] ->
  (forall x, x ∈ batch -> exists i, x = Img i) ->
  __handle_exceeded_length_exception self e batch
  = Raise (MkExc EmbeddingException
             ("Model " ++ _model_name self
              ++ " failed to encode inputs - input was too long. "
              ++ "Try shortening the input text." ++ LF
              ++ "Longest input length: 0 chars")
             (Some e)).
Proof.
  intros Htab Hp Hne Himg.
  assert (Ht : translates e = true).
  { unfold translates. now rewrite Htab. }
  destruct (handle_translated_nonempty self e batch Ht Hne)
    as [m [[Hin _] Hh]].
  rewrite Hh.
  apply list_elem_of_In, in_map_iff in Hin as [x [Hx Hin]].
  apply list_elem_of_In, Himg in Hin as [i ->].
  simpl in Hx. subst m. reflexivity.
Qed.

From Stdlib Require DecimalNat.

Lemma string_length_append (a b : string) :
  String.length (a ++ b) = String.length a + String.length b.
Proof.
  induction a as [|x a IH]; [reflexivity|].
  rewrite append_cons. simpl. now rewrite IH.
Qed.

Lemma append_inj_l (a b c : string) : a ++ b = a ++ c -> b = c.
Proof.
  induction a as [|x a IH]; [now rewrite !append_nil|].
  rewrite !append_cons. intros [= H]. now apply IH.
Qed.

Lemma append_inj_r (a b c : string) : a ++ c = b ++ c -> a = b.
Proof.
  revert b; induction a as [|x a IH]; intros [|y b] H.
  - reflexivity.
  - apply (f_equal String.length) in H.
    rewrite !string_length_append in H. simpl in H. lia.
  - apply (f_equal String.length) in H.
    rewrite !string_length_append in H. simpl in H. lia.
  - rewrite !append_cons in H. injection H as -> H. f_equal. now apply IH.
Qed.

Lemma str_of_nat_inj (n m : nat) : str_of_nat n = str_of_nat m -> n = m.
Proof.
  unfold str_of_nat. intros H.
  apply (f_equal NilEmpty.uint_of_string) in H.
  rewrite !NilEmpty.usu in H. injection H as H.
  apply (f_equal Nat.of_uint) in H.
  now rewrite !DecimalNat.Unsigned.of_to in H.
Qed.

(** X8: the message of the translated error determines the length it
    reports: for one manager, the messages for two lengths are equal only
    when the lengths are; the decimal number in the message reads back as
    the length. *)
Theorem X8_message_determines_length `{C : Collaborators}
    (self : SentenceTransformerManager) (n m : nat) :
  (exceeded_length_message self n = exceeded_length_message self m <-> n = m)
  /\ option_map Nat.of_uint (NilEmpty.uint_of_string (str_of_nat n)) = Some n.
Proof.
  split; [split|].
  - unfold exceeded_length_message. intros H.
    do 6 apply append_inj_l in H. apply append_inj_r in H.
    now apply str_of_nat_inj.
  - now intros ->.
  - unfold str_of_nat. rewrite NilEmpty.usu. simpl.
    now rewrite DecimalNat.Unsigned.of_to.
Qed.

(** ** The classifier on its own result *)

(** X9: the classifier does not translate twice: what it raises on a
    non-empty batch, the original error or its translation, it raises again
    unchanged when that is handed to it, for any manager and batch. *)
Theorem X9_classifier_idempotent `{C : Collaborators}
    (self self' : SentenceTransformerManager) (e raised : PyExc)
    (batch batch' : list (EmbeddingInput Image)) :
  batch <> [] ->
  __handle_exceeded_length_exception self e batch = Raise raised ->
  __handle_exceeded_length_exception self' raised batch' = Raise raised.
Proof.
  intros Hne Hh. destruct (translates e) eqn:Ht.
  - destruct (handle_translated_nonempty self e batch Ht Hne) as [m [_ Hh']].
    rewrite Hh' in Hh. injection Hh as <-.
    now apply handle_not_translated.
  - rewrite (handle_not_translated _ _ _ Ht) in Hh. injection Hh as <-.
    now apply handle_not_translated.
Qed.

(** ** The context and the result *)

Lemma embed_prompt_irrelevant `{C : Collaborators}
    (self : SentenceTransformerManager) (batch : list (EmbeddingInput Image))
    (c1 c2 : ExecutionContext) (w : World) :
  (forall device_type w1 model w2,
     GpuEmbeddingUtil_get_device_type (length batch) w
     = (Return device_type, w1) ->
     SentenceTransformerModelCache_initialize_model
       (_model_name self) device_type (_model_cache_dir self) w1
     = (Return model, w2) ->
     _calculate_prompt_name model c1 = _calculate_prompt_name model c2) ->
  _embed self batch c1 w = _embed self batch c2 w.
Proof.
  intros Hprompt.
  destruct (GpuEmbeddingUtil_get_device_type (length batch) w)
    as [[device_type|e] w1] eqn:Hd.
  2:{ now rewrite !(embed_run_device_raises _ _ _ _ _ _ Hd). }
  destruct (SentenceTransformerModelCache_initialize_model
              (_model_name self) device_type (_model_cache_dir self) w1)
    as [[model|e] w2] eqn:Hm.
  2:{ now rewrite !(embed_run_cache_raises _ _ _ _ _ _ _ _ Hd Hm). }
  pose proof (Hprompt _ _ _ _ eq_refl Hm) as Heq.
  destruct (SentenceTransformer_encode model batch
              (_calculate_prompt_name model c1) w2)
    as [[rows|e] w3] eqn:He1.
  { pose proof He1 as He2. rewrite Heq in He2.
    rewrite (embed_run_encode_returns _ _ c1 _ _ _ _ _ _ _ Hd Hm He1).
    rewrite (embed_run_encode_returns _ _ c2 _ _ _ _ _ _ _ Hd Hm He2).
    unfold calls_to_encode. now rewrite Heq. }
  pose proof He1 as He2. rewrite Heq in He2.
  destruct (isinstance_RuntimeError_or_ValueError e) eqn:Hc.
  - destruct (handle_always_raises self e batch) as [raised Hh].
    rewrite (embed_run_encode_raises_caught _ _ c1 _ _ _ _ _ _ _ _
               Hd Hm He1 Hc Hh).
    rewrite (embed_run_encode_raises_caught _ _ c2 _ _ _ _ _ _ _ _
               Hd Hm He2 Hc Hh).
    unfold calls_to_encode. now rewrite Heq.
  - rewrite (embed_run_encode_raises_uncaught _ _ c1 _ _ _ _ _ _ _
               Hd Hm He1 Hc).
    rewrite (embed_run_encode_raises_uncaught _ _ c2 _ _ _ _ _ _ _
               Hd Hm He2 Hc).
    unfold calls_to_encode. now rewrite Heq.
Qed.

(** X10: when the model the cache returns declares no ["query"] prompt, the
    context does not matter: a query-time and an indexing-time call of
    [embed_text] on the same inputs in the same world give the same outcome,
    the same calls (the same prompt name handed to [encode]) and the same
    world. *)
Theorem X10_context_irrelevant_without_query_prompt `{C : Collaborators}
    (self : SentenceTransformerManager) (inputs : list string)
    (c1 c2 : ExecutionContext) (w : World) :
  (forall device_type w1 model w2,
     GpuEmbeddingUtil_get_device_type (length inputs) w
     = (Return device_type, w1) ->
     SentenceTransformerModelCache_initialize_model
       (_model_name self) device_type (_model_cache_dir self) w1
     = (Return model, w2) ->
     QUERY_PROMPT_NAME ∉ dom (prompts model)) ->
  embed_text self inputs c1 w = embed_text self inputs c2 w.
Proof.
  intros Hq. destruct inputs as [|s inputs]; [reflexivity|].
  assert (Hne : s :: inputs <> []) by discriminate.
  rewrite !(embed_text_nonempty _ _ _ _ Hne). cbv zeta.
  rewrite (embed_prompt_irrelevant self (map Str (s :: inputs)) c1 c2 w);
    [reflexivity|].
  intros d w1 model w2 Hd Hm. rewrite length_map in Hd.
  pose proof (Hq _ _ _ _ Hd Hm) as Hnot.
  rewrite !calculate_prompt_name_default; [reflexivity | |]; tauto.
Qed.

(** X11: when the model the cache returns declares a ["query"] prompt and
    the context is a query context, the batch-embedding primitive calls
    [encode], and every [encode] call of the run has that model, the batch
    itself and the prompt name ["query"], whatever the model's default
    prompt name is. *)
Theorem X11_query_prompt_overrides_default `{C : Collaborators}
    (self : SentenceTransformerManager) (batch : list (EmbeddingInput Image))
    (context : ExecutionContext) (w : World) device_type w1 model w2 :
  GpuEmbeddingUtil_get_device_type (length batch) w
  = (Return device_type, w1) ->
  SentenceTransformerModelCache_initialize_model
    (_model_name self) device_type (_model_cache_dir self) w1
  = (Return model, w2) ->
  QUERY_PROMPT_NAME ∈ dom (prompts model) ->
  is_query_context context = true ->
  Call_encode model batch (Some QUERY_PROMPT_NAME)
  ∈ calls (_embed self batch context w)
  /\ forall m b p,
       Call_encode m b p ∈ calls (_embed self batch context w) ->
       m = model /\ b = batch /\ p = Some QUERY_PROMPT_NAME.
Proof.
  intros Hd Hm Hin Hq.
  pose proof (calculate_prompt_name_query model context Hin Hq) as Hp.
  assert (Hcalls :
    exists tail,
      calls (_embed self batch context w)
      = (calls_to_encode self batch context device_type model ++ tail)%list
      /\ forall m b p, Call_encode m b p ∉ tail).
  { destruct (SentenceTransformer_encode model batch
                (_calculate_prompt_name model context) w2)
      as [[rows|e] w3] eqn:He.
    - rewrite (embed_run_encode_returns _ _ _ _ _ _ _ _ _ _ Hd Hm He).
      exists []. cbn [calls]. rewrite app_nil_r. split; [reflexivity|].
      intros m b p H. now apply not_elem_of_nil in H.
    - destruct (isinstance_RuntimeError_or_ValueError e) eqn:Hc.
      + destruct (handle_always_raises self e batch) as [raised Hh].
        rewrite (embed_run_encode_raises_caught _ _ _ _ _ _ _ _ _ _ _
                   Hd Hm He Hc Hh).
        eexists. cbn [calls]. split; [reflexivity|].
        intros m b p H. apply list_elem_of_singleton in H. discriminate.
      + rewrite (embed_run_encode_raises_uncaught _ _ _ _ _ _ _ _ _ _
                   Hd Hm He Hc).
        exists []. cbn [calls]. rewrite app_nil_r. split; [reflexivity|].
        intros m b p H. now apply not_elem_of_nil in H. }
  destruct Hcalls as [tail [-> Htail]]. unfold calls_to_encode.
  rewrite Hp. split.
  - apply elem_of_app. left. do 2 right. left.
  - intros m b p H. apply elem_of_app in H as [H|H].
    + rewrite !elem_of_cons, elem_of_nil in H.
      destruct H as [H|[H|[H|[]]]]; try discriminate.
      now injection H as -> -> ->.
    + exfalso. eapply Htail; eauto.
Qed.

(** ** What a raised error is *)

(** X12: when [embed_text] raises, the inputs are not empty and the error is
    one of: the error device selection raised; the error model acquisition
    raised; the error [encode] raised, as it is; or the translation of the
    error [encode] raised, an [EmbeddingException] reporting the largest
    length of the inputs, with that error as its cause.  [embed_text] raises
    nothing of its own making besides the translation. *)
Theorem X12_embed_text_raise_sound `{C : Collaborators}
    (self : SentenceTransformerManager) (inputs : list string)
    (context : ExecutionContext) (w : World) (raised : PyExc) :
  outcome (embed_text self inputs context w) = Raise raised ->
  inputs <> []
  /\ ((exists w1,
         GpuEmbeddingUtil_get_device_type (length inputs) w = (Raise raised, w1))
      \/ (exists device_type w1 w2,
            GpuEmbeddingUtil_get_device_type (length inputs) w
            = (Return device_type, w1)
            /\ SentenceTransformerModelCache_initialize_model
                 (_model_name self) device_type (_model_cache_dir self) w1
               = (Raise raised, w2))
      \/ (exists device_type w1 model w2 e w3,
            GpuEmbeddingUtil_get_device_type (length inputs) w
            = (Return device_type, w1)
            /\ SentenceTransformerModelCache_initialize_model
                 (_model_name self) device_type (_model_cache_dir self) w1
               = (Return model, w2)
            /\ SentenceTransformer_encode model (map Str inputs)
                 (_calculate_prompt_name model context) w2
               = (Raise e, w3)
            /\ (raised = e
                \/ exists longest_input_len,
                     is_max longest_input_len (map String.length inputs)
                     /\ raised
                        = MkExc EmbeddingException
                            (exceeded_length_message self longest_input_len)
                            (Some e)))).
Proof.
  destruct inputs as [|s inputs]; [discriminate|].
  assert (Hne : s :: inputs <> []) by discriminate.
  rewrite (embed_text_nonempty _ _ _ _ Hne). cbv zeta.
  intros H. split; [exact Hne|].
  destruct (embed_run_cases self (map Str (s :: inputs)) context w)
    as [e w1 Hd|d w1 e w2 Hd Hm|d w1 model w2 rows w3 Hd Hm He
        |d w1 model w2 e w3 Hd Hm He Hc|d w1 model w2 e w3 r Hd Hm He Hc Hh];
    cbn [outcome] in H; try discriminate; injection H as <-;
    rewrite length_map in Hd.
  - left. eauto.
  - right; left. eauto.
  - right; right. exists d, w1, model, w2, e, w3. auto.
  - right; right. exists d, w1, model, w2, e, w3.
    do 3 (split; [assumption|]).
    destruct (translates e) eqn:Ht.
    + right.
      destruct (handle_translated_nonempty self e _ Ht
                  (map_Str_nonempty _ Hne)) as [m [Hmax Hh']].
      exists m. rewrite input_len_Str in Hmax. split; [exact Hmax|].
      unfold translated in Hh'. congruence.
    + left. rewrite (handle_not_translated _ _ _ Ht) in Hh. congruence.
Qed.

Import (hints) Sample.

Example sample_embed_text :
  embed_text (Sample.manager "plain") ["a"; "bc"] Sample.indexing None
  = Build_Run
      (Return [Vector_init [0; 0; 0; 0]%Z; Vector_init [0; 0; 0; 0]%Z]) None
      [Call_get_device_type 2;
       Call_initialize_model "plain" "cpu" "/tmp/models";
       Call_encode Sample.plain [Str "a"; Str "bc"] None].
Proof. reflexivity. Qed.

Example sample_embed_text_too_long :
  outcome (embed_text (Sample.manager "plain") ["short"; "longer text"]
             Sample.indexing (Some Sample.sequence_length_error))
  = Raise (MkExc EmbeddingException
             ("Model plain failed to encode inputs - input was too long. "
              ++ "Try shortening the input text." ++ LF
              ++ "Longest input length: 11 chars")
             (Some Sample.sequence_length_error)).
Proof. reflexivity. Qed.

(** ** Prompt selection on the sample models *)

Example sample_prompt_query :
  _calculate_prompt_name Sample.asymmetric Sample.querying = Some "query".
Proof.
  apply calculate_prompt_name_query; [|reflexivity].
  apply elem_of_dom. exists "query: ". apply lookup_insert_eq.
Qed.

Example sample_prompt_indexing :
  _calculate_prompt_name Sample.asymmetric Sample.indexing = None.
Proof.
  unfold _calculate_prompt_name. simpl. now rewrite andb_false_r.
Qed.

(** C1, as stated, fails: a model whose default prompt is its ["query"]
    prompt gets the prompt name ["query"] at indexing time too. *)
Lemma C1_counterexample :
  ~ (_calculate_prompt_name Sample.query_by_default Sample.indexing
     = Some QUERY_PROMPT_NAME
     <-> (QUERY_PROMPT_NAME ∈ dom (prompts Sample.query_by_default)
          /\ is_query_context Sample.indexing = true)).
Proof.
  intros [Hfwd _].
  assert (Hsel : _calculate_prompt_name Sample.query_by_default Sample.indexing
                 = Some QUERY_PROMPT_NAME).
  { unfold _calculate_prompt_name. simpl. now rewrite andb_false_r. }
  destruct (Hfwd Hsel) as [_ Hq]. discriminate Hq.
Qed.

(** ** The theorems on the sample collaborators *)

(** A batch with an image between two strings. *)
Definition sample_mixed_batch : list (EmbeddingInput (@Image Sample.collaborators)) :=
  [Str "short"; Img 7; Str "longer text"].

Lemma C2_witness :
  sample_mixed_batch <> []
  /\ exc_type Sample.tensor_size_error = RuntimeError
  /\ contains "The size of tensor a" (exc_str Sample.tensor_size_error) = true
  /\ contains "must match the size of tensor b"
       (exc_str Sample.tensor_size_error) = true
  /\ outcome (_embed (Sample.manager "plain") sample_mixed_batch
                Sample.indexing (Some Sample.tensor_size_error))
     = Raise (MkExc EmbeddingException
                (exceeded_length_message (Sample.manager "plain") 11)
                (Some Sample.tensor_size_error)).
Proof.
  split; [discriminate|]. do 3 (split; [reflexivity|]).
  destruct (C2_runtime_error_translation (C := Sample.collaborators)
              (Sample.manager "plain") sample_mixed_batch Sample.indexing
              (Some Sample.tensor_size_error) "cpu"
              (Some Sample.tensor_size_error) Sample.plain
              (Some Sample.tensor_size_error) Sample.tensor_size_error None
              ltac:(discriminate) eq_refl eq_refl eq_refl eq_refl)
    as [Htranslated _].
  destruct (Htranslated eq_refl eq_refl) as [m [Hmax [Ho _]]].
  rewrite (is_max_unique _ _ _ (foldl_max_is_max 5 [0; 11]) Hmax : 11 = m).
  exact Ho.
Defined.

Lemma C3_witness :
  exc_type Sample.sequence_length_error = ValueError
  /\ startswith (exc_str Sample.sequence_length_error)
       "Sequence length must be less than max_position_embeddings" = true
  /\ outcome (embed_text (Sample.manager "plain") ["short"; "longer text"]
                Sample.indexing (Some Sample.sequence_length_error))
     = Raise (MkExc EmbeddingException
                (exceeded_length_message (Sample.manager "plain") 11)
                (Some Sample.sequence_length_error)).
Proof.
  do 2 (split; [reflexivity|]).
  destruct (C3_value_error_translation (C := Sample.collaborators)
              (Sample.manager "plain") [Str "short"; Str "longer text"]
              Sample.indexing (Some Sample.sequence_length_error) "cpu"
              (Some Sample.sequence_length_error) Sample.plain
              (Some Sample.sequence_length_error) Sample.sequence_length_error
              None ltac:(discriminate) eq_refl eq_refl eq_refl eq_refl)
    as [Htranslated _].
  destruct (Htranslated eq_refl) as [m [Hmax [_ Ho]]].
  rewrite (is_max_unique _ _ _ (foldl_max_is_max 5 [11]) Hmax : 11 = m).
  exact (Ho ["short"; "longer text"] eq_refl).
Defined.

Lemma C4_witness :
  exc_type Sample.timeout_error <> RuntimeError
  /\ exc_type Sample.timeout_error <> ValueError
  /\ outcome (embed_text (Sample.manager "plain") ["a"; "bc"] Sample.querying
                (Some Sample.timeout_error))
     = Raise Sample.timeout_error.
Proof.
  do 2 (split; [discriminate|]).
  destruct (C4_unrelated_errors_propagate (C := Sample.collaborators)
              (Sample.manager "plain") ["a"; "bc"] Sample.querying
              (Some Sample.timeout_error) "cpu" (Some Sample.timeout_error)
              Sample.plain (Some Sample.timeout_error) Sample.timeout_error
              None ltac:(discriminate) eq_refl eq_refl eq_refl)
    as [Hunrelated _].
  destruct (Hunrelated ltac:(discriminate) ltac:(discriminate)) as [Ho _].
  exact Ho.
Defined.

Lemma C5_witness :
  exists raised,
    __handle_exceeded_length_exception (Sample.manager "plain")
      Sample.tensor_size_error sample_mixed_batch
    = Raise raised
    /\ contains "plain" (exc_str raised) = true
    /\ contains "Longest input length: 11 chars" (exc_str raised) = true
    /\ exc_cause raised = Some Sample.tensor_size_error.
Proof.
  destruct (C5_translated_error_message (C := Sample.collaborators)
              (Sample.manager "plain") Sample.tensor_size_error
              sample_mixed_batch _ eq_refl eq_refl ltac:(discriminate))
    as [m [raised [Hmax [Hh [_ [_ [Hname [_ [Hlen Hcause]]]]]]]]].
  exists raised. split; [exact Hh|]. split; [exact Hname|].
  split; [|exact Hcause].
  rewrite <- (is_max_unique _ _ _ (foldl_max_is_max 5 [0; 11]) Hmax : 11 = m)
    in Hlen.
  exact Hlen.
Defined.

Lemma C7_witness :
  exists vectors,
    outcome (embed_text (Sample.manager "asymmetric") ["a"; "bc"]
               Sample.querying None)
    = Return vectors
    /\ length vectors = 2
    /\ forall v, v ∈ vectors ->
         outcome (calculate_length (Sample.manager "asymmetric") None)
         = Return (Z.of_nat (vector_length v)).
Proof.
  destruct (C7_embed_text_vectors (C := Sample.collaborators)
              (Sample.manager "asymmetric") ["a"; "bc"] Sample.querying None
              "cpu" None Sample.asymmetric None
              [[0; 0; 0]; [0; 0; 0]]%Z None None 3%Z
              ltac:(discriminate) eq_refl eq_refl eq_refl eq_refl eq_refl)
    as [vectors [Ho [Hlen [_ Hdim]]]].
  - intros row Hrow. rewrite !elem_of_cons, elem_of_nil in Hrow.
    destruct Hrow as [->|[->|[]]]; reflexivity.
  - exists vectors. split; [exact Ho|]. split; [exact Hlen | exact Hdim].
Defined.

Lemma C9_witness :
  issubclass is_RuntimeError (exc_type Sample.not_implemented_error) = true
  /\ exc_type Sample.not_implemented_error <> RuntimeError
  /\ contains "The size of tensor a"
       (exc_str Sample.not_implemented_error) = true
  /\ contains "must match the size of tensor b"
       (exc_str Sample.not_implemented_error) = true
  /\ __handle_exceeded_length_exception (Sample.manager "plain")
       Sample.not_implemented_error sample_mixed_batch
     = Raise Sample.not_implemented_error.
Proof.
  split; [reflexivity|]. split; [discriminate|].
  do 2 (split; [reflexivity|]).
  refine (proj1 (proj2 (proj2
            (C9_subclass_not_translated (C := Sample.collaborators)
               (Sample.manager "plain") Sample.not_implemented_error
               sample_mixed_batch _)))).
  left. split; [reflexivity | discriminate].
Defined.

(** The example of the specification: two inputs, the longer of 5000
    characters, no ["query"] prompt, and a [ValueError] of [encode] with the
    marker. *)
Example sample_longest_input_5000 :
  outcome (embed_text (Sample.manager "plain")
             ["short"; Sample.text_of_length 5000] Sample.indexing
             (Some Sample.sequence_length_error))
  = Raise (MkExc EmbeddingException
             ("Model plain failed to encode inputs - input was too long. "
              ++ "Try shortening the input text." ++ LF
              ++ "Longest input length: 5000 chars")
             (Some Sample.sequence_length_error)).
Proof. vm_compute. reflexivity. Qed.

(** Called on its own with an empty batch, the batch-embedding primitive lets
    the error of [max] out for an error the classifier translates. *)
Example sample_embed_empty_batch :
  _embed (Sample.manager "plain") [] Sample.indexing
    (Some Sample.tensor_size_error)
  = Build_Run
      (Raise (MkExc ValueError "max() arg is an empty sequence" None)) None
      [Call_get_device_type 0;
       Call_initialize_model "plain" "cpu" "/tmp/models";
       Call_encode Sample.plain [] None;
       Call_handle_exceeded_length_exception Sample.tensor_size_error []].
Proof. reflexivity. Qed.

(** ** The further properties on the sample collaborators *)

Lemma X1_witness :
  EXCEEDED_LENGTH_EXCEPTION_PREDICATE_BY_EXCEPTION_TYPE
    (exc_type Sample.tensor_size_error)
  <> None
  /\ embed_text (C := Outage.collaborators) (Outage.manager "plain") ["some text"] Sample.indexing
       Outage.device_down
     = Build_Run (C := Outage.collaborators) (Raise Sample.tensor_size_error) Outage.device_down
         [@Call_get_device_type Outage.collaborators 1].
Proof.
  split; [discriminate|].
  exact (X1_device_selector_error_propagates (C := Outage.collaborators)
           (Outage.manager "plain") ["some text"] Sample.indexing
           Outage.device_down Sample.tensor_size_error Outage.device_down
           ltac:(discriminate) eq_refl).
Defined.

Lemma X2_witness :
  embed_text (C := Outage.collaborators) (Outage.manager "plain") ["some text"] Sample.indexing
    Outage.cache_down
  = Build_Run (C := Outage.collaborators) (Raise Sample.sequence_length_error) Outage.cache_down
      [@Call_get_device_type Outage.collaborators 1;
       @Call_initialize_model Outage.collaborators "plain" "cpu" "/tmp/models"].
Proof.
  exact (X2_model_cache_error_propagates (C := Outage.collaborators)
           (Outage.manager "plain") ["some text"] Sample.indexing
           Outage.cache_down "cpu" Outage.cache_down
           Sample.sequence_length_error Outage.cache_down
           ltac:(discriminate) eq_refl eq_refl).
Defined.

Lemma X4_witness :
  exists rows : list (list Z),
    SentenceTransformer_encode Sample.plain [Str "a"; Str "bc"] None None
    = (Return rows, None)
    /\ [@Vector_init Sample.collaborators [0; 0; 0; 0]%Z;
        @Vector_init Sample.collaborators [0; 0; 0; 0]%Z]
       = map Vector_init rows.
Proof.
  destruct (X4_embed_text_return_sound (C := Sample.collaborators)
              (Sample.manager "plain") ["a"; "bc"] Sample.indexing None
              [@Vector_init Sample.collaborators [0; 0; 0; 0]%Z;
               @Vector_init Sample.collaborators [0; 0; 0; 0]%Z]
              eq_refl)
    as [[Hempty _]|(d & w1 & model & w2 & rows & w3 & Hd & Hm & He & Hv & _)].
  - discriminate Hempty.
  - cbn in Hd. injection Hd as <- <-.
    cbn in Hm. injection Hm as <- <-.
    exists rows. split; [|exact Hv].
    cbn in He. injection He as <- <-. reflexivity.
Defined.

Lemma X5_witness :
  _calculate_prompt_name Sample.query_by_default Sample.indexing
  = Some "query"
  /\ "query" ∈ dom (prompts Sample.query_by_default).
Proof.
  assert (Hsel : _calculate_prompt_name Sample.query_by_default Sample.indexing
                 = Some "query").
  { unfold _calculate_prompt_name. simpl. now rewrite andb_false_r. }
  split; [exact Hsel|].
  refine (X5_prompt_name_declared (C := Sample.collaborators)
            Sample.query_by_default Sample.indexing _ "query" Hsel).
  intros p Hp. injection Hp as <-.
  apply elem_of_dom. exists "query: ". apply lookup_insert_eq.
Defined.

Lemma X6_witness :
  __handle_exceeded_length_exception (Sample.manager "plain")
    Sample.tensor_size_error sample_mixed_batch
  = __handle_exceeded_length_exception (Sample.manager "plain")
      Sample.tensor_size_error [Str "longer text"; Str "short"; Img 7].
Proof.
  apply (X6_classifier_order_independent (C := Sample.collaborators)).
  unfold sample_mixed_batch.
  apply (Permutation_cons_app [Str "longer text"] [Img 7] (Str "short")).
  apply perm_swap.
Defined.

Lemma X7_witness :
  __handle_exceeded_length_exception (Sample.manager "plain")
    Sample.sequence_length_error [Img 1; Img 2]
  = Raise (MkExc EmbeddingException
             ("Model plain failed to encode inputs - input was too long. "
              ++ "Try shortening the input text." ++ LF
              ++ "Longest input length: 0 chars")
             (Some Sample.sequence_length_error)).
Proof.
  refine (X7_images_only_reports_zero (C := Sample.collaborators)
            (Sample.manager "plain") Sample.sequence_length_error
            [Img 1; Img 2] _ eq_refl eq_refl ltac:(discriminate) _).
  intros x Hx. rewrite !elem_of_cons, elem_of_nil in Hx.
  destruct Hx as [->|[->|[]]]; eauto.
Defined.

Lemma X9_witness :
  __handle_exceeded_length_exception (Sample.manager "asymmetric")
    (MkExc EmbeddingException
       (exceeded_length_message (Sample.manager "plain") 11)
       (Some Sample.tensor_size_error))
    [Str "a"]
  = Raise (MkExc EmbeddingException
             (exceeded_length_message (Sample.manager "plain") 11)
             (Some Sample.tensor_size_error)).
Proof.
  exact (X9_classifier_idempotent (C := Sample.collaborators)
           (Sample.manager "plain") (Sample.manager "asymmetric")
           Sample.tensor_size_error _ sample_mixed_batch [Str "a"]
           ltac:(discriminate) eq_refl).
Defined.

Lemma X10_witness :
  embed_text (Sample.manager "plain") ["a"; "bc"] Sample.querying None
  = embed_text (Sample.manager "plain") ["a"; "bc"] Sample.indexing None.
Proof.
  apply (X10_context_irrelevant_without_query_prompt
           (C := Sample.collaborators)).
  intros d w1 model w2 _ Hm. cbn in Hm. injection Hm as <- <-.
  apply not_elem_of_dom. apply lookup_empty.
Defined.

Lemma X11_witness :
  forallb
    (fun c =>
       match c with
       | Call_encode _ _ (Some "query") => true
       | Call_encode _ _ _ => false
       | _ => true
       end)
    (calls (_embed (Sample.manager "query_by_default") sample_mixed_batch
              Sample.querying None))
  = true
  /\ Call_encode Sample.query_by_default sample_mixed_batch (Some "query")
     ∈ calls (_embed (Sample.manager "query_by_default") sample_mixed_batch
                Sample.querying None).
Proof.
  split; [vm_compute; reflexivity|].
  refine (proj1 (X11_query_prompt_overrides_default
                   (C := Sample.collaborators)
                   (Sample.manager "query_by_default") sample_mixed_batch
                   Sample.querying None "cpu" None Sample.query_by_default
                   None eq_refl eq_refl _ eq_refl)).
  apply elem_of_dom. exists "query: ". apply lookup_insert_eq.
Defined.

Lemma X12_witness :
  exists longest_input_len,
    is_max longest_input_len (map String.length ["short"; "longer text"])
    /\ MkExc EmbeddingException
         (exceeded_length_message (Sample.manager "plain") 11)
         (Some Sample.sequence_length_error)
       = MkExc EmbeddingException
           (exceeded_length_message (Sample.manager "plain")
              longest_input_len)
           (Some Sample.sequence_length_error).
Proof.
  destruct (X12_embed_text_raise_sound (C := Sample.collaborators)
              (Sample.manager "plain") ["short"; "longer text"]
              Sample.indexing (Some Sample.sequence_length_error)
              (MkExc EmbeddingException
                 (exceeded_length_message (Sample.manager "plain") 11)
                 (Some Sample.sequence_length_error))
              eq_refl)
    as [_ [[w1 Hd]|[(d & w1 & w2 & _ & Hm)
                   |(d & w1 & model & w2 & e & w3 & Hd & Hm & He & Hr)]]].
  - discriminate Hd.
  - discriminate Hm.
  - cbn in Hd. injection Hd as <- <-.
    cbn in Hm. injection Hm as <- <-.
    cbn in He. injection He as <- <-.
    destruct Hr as [Hr|[n [Hmax Hr]]]; [discriminate Hr|].
    exists n. split; [exact Hmax | exact Hr].
Defined.
